(** * django-modern-rpc: registry, request/result envelopes and system methods

    A shallow embedding of [modernrpc/core.py] and
    [modernrpc/system_methods.py].  Python objects become Rocq values,
    attribute mutation becomes explicit state passing, and a raised
    exception becomes the left injection of a sum. *)

From Stdlib Require Import List String Ascii ZArith Bool Arith Lia.
Import ListNotations.
Open Scope string_scope.

Set Implicit Arguments.

(** ** Python values *)

(** The values the RPC layer carries: [None], integers, strings, lists,
    tuples, sets and string-keyed dicts (JSON objects / XML-RPC structs).
    A set is listed by its elements, a dict by its items in insertion
    order. *)
#[warnings="-register-all"]
Inductive pyval : Type :=
| PyNone
| PyInt (z : Z)
| PyStr (s : string)
| PyList (l : list pyval)
| PyTuple (l : list pyval)
| PySet (l : list pyval)
| PyDict (d : list (string * pyval)).

(** Induction principle that reaches the values nested in containers. *)
Section pyval_nested_ind.
Variable P : pyval -> Prop.
Hypothesis HNone : P PyNone.
Hypothesis HInt : forall z, P (PyInt z).
Hypothesis HStr : forall s, P (PyStr s).
Hypothesis HList : forall l, Forall P l -> P (PyList l).
Hypothesis HTuple : forall l, Forall P l -> P (PyTuple l).
Hypothesis HSet : forall l, Forall P l -> P (PySet l).
Hypothesis HDict : forall d, Forall (fun kv => P (snd kv)) d -> P (PyDict d).

Fixpoint pyval_nested_ind (v : pyval) : P v :=
  let fix elems (l : list pyval) : Forall P l :=
    match l with
    | [] => Forall_nil P
    | x :: xs => Forall_cons x (pyval_nested_ind x) (elems xs)
    end in
  let fix items (d : list (string * pyval))
      : Forall (fun kv => P (snd kv)) d :=
    match d with
    | [] => Forall_nil _
    | kv :: rest =>
        Forall_cons (P := fun kv => P (snd kv)) kv
                    (pyval_nested_ind (snd kv)) (items rest)
    end in
  match v with
  | PyNone => HNone
  | PyInt z => HInt z
  | PyStr s => HStr s
  | PyList l => HList (elems l)
  | PyTuple l => HTuple (elems l)
  | PySet l => HSet (elems l)
  | PyDict d => HDict (items d)
  end.
End pyval_nested_ind.

(** Python's [==] on these values: sequences compare element by element, a
    list never equals a tuple, sets and dicts compare without regard to
    order. *)
Fixpoint py_eq (a b : pyval) {struct a} : bool :=
  match a, b with
  | PyNone, PyNone => true
  | PyInt x, PyInt y => Z.eqb x y
  | PyStr x, PyStr y => String.eqb x y
  | PyList l1, PyList l2 | PyTuple l1, PyTuple l2 =>
      (fix seq_eq (xs ys : list pyval) {struct xs} : bool :=
         match xs, ys with
         | [], [] => true
         | x :: xs', y :: ys' => py_eq x y && seq_eq xs' ys'
         | _, _ => false
         end) l1 l2
  | PySet s1, PySet s2 =>
      forallb (fun x => existsb (fun y => py_eq x y) s2) s1
      && forallb (fun y => existsb (fun x => py_eq x y) s1) s2
  | PyDict d1, PyDict d2 =>
      forallb (fun kv => existsb (fun kv' => String.eqb (fst kv) (fst kv')
                                          && py_eq (snd kv) (snd kv')) d2) d1
      && forallb (fun kv' => existsb (fun kv => String.eqb (fst kv) (fst kv')
                                          && py_eq (snd kv) (snd kv')) d1) d2
  | _, _ => false
  end.

(** [x in seq] for a list or tuple given by its elements. *)
Definition py_in (x : pyval) (seq : list pyval) : bool :=
  existsb (fun y => py_eq y x) seq.

(** ** Exceptions *)

Inductive exn : Type :=
| ImproperlyConfigured (msg : string)
| RPCInvalidParams (msg : string)
| ValueError (msg : string)
| AttributeError (attr : string)
| KeyError (key : pyval)
| IndexError
| TypeError.

(** A call either raises or returns. *)
Definition result (A : Type) : Type := (exn + A)%type.
Definition Raise {A} (e : exn) : result A := inl e.
Definition Return {A} (a : A) : result A := inr a.

Definition raises {A} (r : result A) : bool :=
  match r with inl _ => true | inr _ => false end.

Definition is_configuration_error {A} (r : result A) : bool :=
  match r with inl (ImproperlyConfigured _) => true | _ => false end.

Definition is_invalid_params {A} (r : result A) : bool :=
  match r with inl (RPCInvalidParams _) => true | _ => false end.

Definition bind {A B} (m : result A) (k : A -> result B) : result B :=
  match m with inl e => inl e | inr a => k a end.

Declare Scope result_scope.
Delimit Scope result_scope with result.
Notation "x <- m ;; k" := (bind m (fun x => k))
  (at level 100, m at next level, right associativity) : result_scope.

(** ** String-keyed dicts, in insertion order *)

Section Dict.
Variable V : Type.

Fixpoint dict_get (d : list (string * V)) (k : string) : option V :=
  match d with
  | [] => None
  | (k', v) :: rest => if String.eqb k' k then Some v else dict_get rest k
  end.

(** [k in d] *)
Definition dict_contains (d : list (string * V)) (k : string) : bool :=
  match dict_get d k with Some _ => true | None => false end.

(** [d[k]] *)
Definition dict_getitem (d : list (string * V)) (k : string) : result V :=
  match dict_get d k with Some v => Return v | None => Raise (KeyError (PyStr k)) end.

(** [d.get(k, default)] *)
Definition dict_get_default (d : list (string * V)) (k : string) (default : V) : V :=
  match dict_get d k with Some v => v | None => default end.

(** [d[k] = v]: an existing key keeps its place, a new one goes last. *)
Fixpoint dict_set (d : list (string * V)) (k : string) (v : V) : list (string * V) :=
  match d with
  | [] => [(k, v)]
  | (k', v') :: rest =>
      if String.eqb k' k then (k', v) :: rest else (k', v') :: dict_set rest k v
  end.

Definition dict_items (d : list (string * V)) : list (string * V) := d.
Definition dict_values (d : list (string * V)) : list V := map snd d.
Definition dict_len (d : list (string * V)) : nat := List.length d.
End Dict.

(** [sorted] on strings and on [(name, value)] pairs of a dict, whose names
    are pairwise different so that the values are never compared. *)
Section Sorted.
Variable V : Type.
Variable key : V -> string.

Fixpoint insert_sorted (x : V) (l : list V) : list V :=
  match l with
  | [] => [x]
  | y :: rest =>
      if String.ltb (key x) (key y) then x :: y :: rest
      else y :: insert_sorted x rest
  end.

Definition sorted (l : list V) : list V :=
  fold_left (fun acc x => insert_sorted x acc) l [].
End Sorted.

(** ** External collaborators *)

(** Modelled from the spec: [modernrpc.helpers.ensure_sequence], which
    [core.py] imports; a single value is normalised to a one-element
    sequence, a list or tuple is kept. *)
Definition ensure_sequence (element : pyval) : list pyval :=
  match element with
  | PyList l | PyTuple l => l
  | _ => [element]
  end.

(** Modelled from the spec: what [modernrpc.introspection.Introspector]
    exposes for a procedure: argument names in declaration order, a type
    hint per argument, the return type hint, and whether the procedure takes
    arbitrary keyword arguments. *)
Module Introspector.
Record t : Type := make {
  args : list string;
  args_types : list (string * string);
  return_type : string;
  accept_kwargs : bool
}.
End Introspector.

(** Modelled from the spec: what [modernrpc.introspection.DocstringParser]
    exposes for a procedure: raw and rendered documentation, and the
    documentation text and declared type of each argument and of the return
    value. *)
Module DocstringParser.
Record t : Type := make {
  raw_docstring : string;
  html_doc : string;
  args_types : list (string * string);
  args_doc : list (string * string);
  return_type : string;
  return_doc : string
}.
End DocstringParser.

(** [a or b] on strings: the empty string is false. *)
Definition str_or (a b : string) : string :=
  if String.eqb a "" then b else a.

(** Special constant meaning "all protocols" or "all entry points". *)
Definition ALL : pyval := PyStr "__all__".

Definition JSONRPC_PROTOCOL : pyval := PyStr "__json_rpc".
Definition XMLRPC_PROTOCOL : pyval := PyStr "__xml_rpc".

(** ** core.py *)

Section Core.
(** The caller context handed to authentication predicates (Django's
    [HttpRequest]). *)
Variable HttpRequest : Type.

(** An authentication predicate is a function object: [pred_id] is its
    identity, [pred_call request params] is [predicate(request, *params)]. *)
Record predicate : Type := {
  pred_id : nat;
  pred_call : HttpRequest -> list pyval -> bool
}.

(** A function object handed to the registry.  [fn_id] is the identity of
    the object; the attributes set by [@rpc_method] and by the
    authentication decorators may each be missing. *)
Record pyfunc : Type := {
  fn_id : nat;
  __name__ : string;
  modernrpc_enabled : option bool;
  modernrpc_name : option string;
  modernrpc_entry_point : option pyval;
  modernrpc_protocol : option pyval;
  modernrpc_auth_predicates : option (list predicate);
  modernrpc_auth_predicates_params : option (list (list pyval));
  introspection : Introspector.t;
  docstring : DocstringParser.t
}.

(** [getattr(obj, attr, default)] and [getattr(obj, attr)]. *)
Definition getattr_default {A} (attr : option A) (default : A) : A :=
  match attr with Some a => a | None => default end.

Definition getattr {A} (attr : option A) (attr_name : string) : result A :=
  match attr with Some a => Return a | None => Raise (AttributeError attr_name) end.

Record RPCMethod : Type := {
  function : pyfunc;
  entry_point : pyval;
  protocol : pyval;
  predicates : option (list predicate);
  predicates_params : list (list pyval);
  introspector : Introspector.t;
  doc_parser : DocstringParser.t
}.

(** [RPCMethod.__init__] *)
Definition RPCMethod_init (func : pyfunc) : result RPCMethod :=
  (ep <- getattr (modernrpc_entry_point func) "modernrpc_entry_point" ;;
   pr <- getattr (modernrpc_protocol func) "modernrpc_protocol" ;;
   Return {| function := func;
             entry_point := ep;
             protocol := pr;
             predicates := modernrpc_auth_predicates func;
             predicates_params :=
               getattr_default (modernrpc_auth_predicates_params func) [];
             introspector := introspection func;
             doc_parser := docstring func |})%result.

Definition name (self : RPCMethod) : string :=
  getattr_default (modernrpc_name (function self)) (__name__ (function self)).

(** [==] on function objects is identity. *)
Definition function_eq (f g : pyfunc) : bool := Nat.eqb (fn_id f) (fn_id g).

Fixpoint predicates_list_eq (ps qs : list predicate) : bool :=
  match ps, qs with
  | [], [] => true
  | p :: ps', q :: qs' => Nat.eqb (pred_id p) (pred_id q) && predicates_list_eq ps' qs'
  | _, _ => false
  end.

Definition predicates_eq (ps qs : option (list predicate)) : bool :=
  match ps, qs with
  | None, None => true
  | Some ps', Some qs' => predicates_list_eq ps' qs'
  | _, _ => false
  end.

(** [==] on a sequence of parameter tuples. *)
Definition predicates_params_eq (ps qs : list (list pyval)) : bool :=
  py_eq (PyList (map PyTuple ps)) (PyList (map PyTuple qs)).

(** [RPCMethod.__eq__] *)
Definition RPCMethod_eq (self other : RPCMethod) : bool :=
  function_eq (function self) (function other)
  && String.eqb (name self) (name other)
  && py_eq (entry_point self) (entry_point other)
  && py_eq (protocol self) (protocol other)
  && predicates_eq (predicates self) (predicates other)
  && predicates_params_eq (predicates_params self) (predicates_params other).

(** [all(predicate(request, *self.predicates_params[i])
         for i, predicate in enumerate(self.predicates))], from index [i]
    on: the generator is consumed up to the first false value, and indexing
    past the end of [predicates_params] raises. *)
Fixpoint all_predicates (request : HttpRequest) (params : list (list pyval))
         (i : nat) (preds : list predicate) : result bool :=
  match preds with
  | [] => Return true
  | p :: rest =>
      match nth_error params i with
      | None => Raise IndexError
      | Some ps =>
          if pred_call p request ps
          then all_predicates request params (S i) rest
          else Return false
      end
  end.

Definition check_permissions (self : RPCMethod) (request : HttpRequest)
  : result bool :=
  match predicates self with
  | None | Some [] => Return true
  | Some preds => all_predicates request (predicates_params self) 0 preds
  end.

Definition available_for_protocol (self : RPCMethod) (protocol' : pyval) : bool :=
  if py_in ALL [protocol self; protocol'] then true
  else py_in protocol' (ensure_sequence (protocol self)).

Definition available_for_entry_point (self : RPCMethod) (entry_point' : pyval) : bool :=
  if py_in ALL [entry_point self; entry_point'] then true
  else py_in entry_point' (ensure_sequence (entry_point self)).

Definition is_valid_for (self : RPCMethod) (entry_point' protocol' : pyval) : bool :=
  available_for_entry_point self entry_point'
  && available_for_protocol self protocol'.

Definition args (self : RPCMethod) : list string :=
  Introspector.args (introspector self).

Definition html_doc (self : RPCMethod) : string :=
  DocstringParser.html_doc (doc_parser self).

(** [args_doc]: an ordered dict from each argument to its
    [{"type": ..., "text": ...}] dict. *)
Definition args_doc (self : RPCMethod) : list (string * list (string * string)) :=
  fold_left
    (fun result arg =>
       dict_set result arg
         [("type",
           str_or (dict_get_default (DocstringParser.args_types (doc_parser self)) arg "")
                  (dict_get_default (Introspector.args_types (introspector self)) arg ""));
          ("text",
           dict_get_default (DocstringParser.args_doc (doc_parser self)) arg "")])
    (Introspector.args (introspector self)) [].

Definition return_doc (self : RPCMethod) : list (string * string) :=
  [("type", str_or (DocstringParser.return_type (doc_parser self))
                   (Introspector.return_type (introspector self)));
   ("text", DocstringParser.return_doc (doc_parser self))].

(** *** The registry *)

Record _RPCRegistry : Type := { _registry : list (string * RPCMethod) }.

Definition empty_registry : _RPCRegistry := {| _registry := [] |}.

Definition reset (self : _RPCRegistry) : _RPCRegistry := {| _registry := [] |}.

(** [get_method]: the sentinel [None] is [Return None]. *)
Definition get_method (self : _RPCRegistry) (name' : string)
           (entry_point' protocol' : pyval) : result (option RPCMethod) :=
  if dict_contains (_registry self) name' then
    (m <- dict_getitem (_registry self) name' ;;
     if is_valid_for m entry_point' protocol' then
       (found <- dict_getitem (_registry self) name' ;; Return (Some found))
     else Return None)%result
  else Return None.

Definition dquote : string := String (ascii_of_nat 34) "".

Definition not_decorated_msg (fname : string) : string :=
  "Error: trying to register " ++ fname
    ++ " as RPC method, but it has not been decorated.".

Definition reserved_prefix_msg : string :=
  "According to RPC standard, method names starting with " ++ dquote ++ "rpc."
    ++ dquote ++ " are reserved for system extensions and must not be used. "
    ++ "See https://www.jsonrpc.org/specification#extensions for more information.".

Definition already_registered_msg (name' : string) : string :=
  "A RPC method with name " ++ name' ++ " has already been registered".

(** [register_method]: the outcome of the call and the registry it leaves
    behind. *)
Definition register_method (func : pyfunc) (self : _RPCRegistry)
  : result string * _RPCRegistry :=
  if negb (getattr_default (modernrpc_enabled func) false) then
    (Raise (ImproperlyConfigured (not_decorated_msg (__name__ func))), self)
  else
    let name' := getattr_default (modernrpc_name func) (__name__ func) in
    if String.prefix "rpc." name' then
      (Raise (ImproperlyConfigured reserved_prefix_msg), self)
    else
      match RPCMethod_init func with
      | inl e => (Raise e, self)
      | inr method =>
          match get_method self (name method) ALL ALL with
          | inl e => (Raise e, self)
          | inr (Some existing_method) =>
              if RPCMethod_eq method existing_method then
                (Return (name method), self)
              else
                (Raise (ImproperlyConfigured (already_registered_msg (name method))),
                 self)
          | inr None =>
              (Return (name method),
               {| _registry := dict_set (_registry self) (name method) method |})
          end
      end.

Definition total_count (self : _RPCRegistry) : nat := dict_len (_registry self).

Definition get_all_method_names (self : _RPCRegistry)
           (entry_point' protocol' : pyval) (sort_methods : bool) : list string :=
  let method_names :=
    map fst (filter (fun item => is_valid_for (snd item) entry_point' protocol')
                    (dict_items (_registry self))) in
  if sort_methods then sorted (fun s => s) method_names else method_names.

Definition get_all_methods (self : _RPCRegistry)
           (entry_point' protocol' : pyval) (sort_methods : bool) : list RPCMethod :=
  if sort_methods then
    map snd (filter (fun item => is_valid_for (snd item) entry_point' protocol')
                    (sorted fst (dict_items (_registry self))))
  else dict_values (_registry self).

(** [@rpc_method(name=..., entry_point=..., protocol=...)] applied to a
    function. *)
Definition rpc_method (name' : option string) (entry_point' protocol' : pyval)
           (_func : pyfunc) : pyfunc :=
  {| fn_id := fn_id _func;
     __name__ := __name__ _func;
     modernrpc_enabled := Some true;
     modernrpc_name :=
       Some (match name' with
             | Some n => str_or n (__name__ _func)
             | None => __name__ _func
             end);
     modernrpc_entry_point := Some entry_point';
     modernrpc_protocol := Some protocol';
     modernrpc_auth_predicates := modernrpc_auth_predicates _func;
     modernrpc_auth_predicates_params := modernrpc_auth_predicates_params _func;
     introspection := introspection _func;
     docstring := docstring _func |}.
End Core.

Arguments empty_registry {HttpRequest}.

(** *** Request and result envelopes *)

(** [type(v)] as it prints. *)
Definition type_repr (v : pyval) : string :=
  match v with
  | PyNone => "<class 'NoneType'>"
  | PyInt _ => "<class 'int'>"
  | PyStr _ => "<class 'str'>"
  | PyList _ => "<class 'list'>"
  | PyTuple _ => "<class 'tuple'>"
  | PySet _ => "<class 'set'>"
  | PyDict _ => "<class 'dict'>"
  end.

Definition is_none (v : pyval) : bool :=
  match v with PyNone => true | _ => false end.

(** [isinstance(v, dict)], [isinstance(v, list)],
    [isinstance(v, (list, set, tuple))]. *)
Definition isinstance_dict (v : pyval) : bool :=
  match v with PyDict _ => true | _ => false end.

Definition isinstance_list (v : pyval) : bool :=
  match v with PyList _ => true | _ => false end.

Definition isinstance_list_set_tuple (v : pyval) : bool :=
  match v with PyList _ | PySet _ | PyTuple _ => true | _ => false end.

Module RpcRequest.
(** An instance is its attribute dict; the class defines [__init__] only, so
    every attribute of a request is an entry of it. *)
Record t : Type := make {
  __dict__ : list (string * pyval)
}.

(** The entry [key] of the attribute dict.  [self.key] reads it whenever
    there is one: the entries of an instance come before what its class
    defines, the three descriptors of [setattr] below apart. *)
Definition lookup (self : t) (key : string) : option pyval :=
  dict_get (__dict__ self) key.

Definition request_id (self : t) : option pyval := lookup self "request_id".
Definition method_name (self : t) : option pyval := lookup self "method_name".
Definition args (self : t) : option pyval := lookup self "args".
Definition kwargs (self : t) : option pyval := lookup self "kwargs".

(** [self.key = value] for a name that is an entry of the attribute dict. *)
Definition store (self : t) (key : string) (value : pyval) : t :=
  make (dict_set (__dict__ self) key value).

(** [setattr(self, key, value)].  Three names are descriptors of every
    instance: [__class__] takes a class only, [__dict__] takes a dict only,
    which then becomes the attribute dict, and [__weakref__] is not
    writable. *)
Definition setattr (self : t) (key : string) (value : pyval) : result t :=
  if String.eqb key "__class__" then Raise TypeError
  else if String.eqb key "__dict__" then
    match value with
    | PyDict d => Return (make d)
    | _ => Raise TypeError
    end
  else if String.eqb key "__weakref__" then Raise (AttributeError "__weakref__")
  else Return (store self key value).

(** [for key, value in kwargs.items(): setattr(self, key, value)] *)
Fixpoint setattrs (items : list (string * pyval)) (self : t) : result t :=
  match items with
  | [] => Return self
  | (key, value) :: rest =>
      (self' <- setattr self key value ;; setattrs rest self')%result
  end.

(** Binding the arguments of [RpcRequest(method_name, params, **kwargs)]: a
    keyword named like a parameter of [__init__] is a second value for it,
    and the call raises before [__init__] runs. *)
Definition keyword_clash (kwargs' : list (string * pyval)) : bool :=
  existsb (fun kv => existsb (String.eqb (fst kv)) ["self"; "method_name"; "params"])
          kwargs'.

(** The assignments of [__init__] up to and including the branch on
    [params]. *)
Definition init_params (method_name' params : pyval) : result t :=
  let self := store (make []) "request_id" PyNone in
  let self := store self "method_name" method_name' in
  let self := store self "args" (PyList []) in
  let self := store self "kwargs" (PyDict []) in
  if negb (is_none params) then
    if isinstance_dict params then
      Return (store self "kwargs" params)
    else if isinstance_list_set_tuple params then
      Return (store self "args" params)
    else
      Raise (ValueError ("RPCRequest initial params has an unsupported type: "
                           ++ type_repr params))
  else Return self.

(** [RpcRequest(method_name, params, **kwargs)] *)
Definition init (method_name' params : pyval) (kwargs' : list (string * pyval))
  : result t :=
  if keyword_clash kwargs' then Raise TypeError
  else
    (self <- init_params method_name' params ;;
     setattrs (dict_items kwargs') self)%result.
End RpcRequest.

(** [v[i]] for an integer index [i >= 0]. *)
Definition py_getitem_index (v : pyval) (i : nat) : result pyval :=
  match v with
  | PyList l | PyTuple l =>
      match nth_error l i with Some x => Return x | None => Raise IndexError end
  | PyStr s =>
      match String.get i s with
      | Some c => Return (PyStr (String c ""))
      | None => Raise IndexError
      end
  | PyDict _ => Raise (KeyError (PyInt (Z.of_nat i)))
  | _ => Raise TypeError
  end.

(** [v[key]] for a string [key]. *)
Definition py_getitem_key (v : pyval) (key : string) : result pyval :=
  match v with
  | PyDict d => dict_getitem d key
  | _ => Raise TypeError
  end.

(** [v.get(key)] *)
Definition py_get (v : pyval) (key : string) : result pyval :=
  match v with
  | PyDict d => Return (dict_get_default d key PyNone)
  | _ => Raise (AttributeError "get")
  end.

Module RpcResult.
Record t : Type := make {
  request_id : pyval;
  _response_is_error : option bool;
  _data : pyval
}.

Definition init (request_id' : pyval) : t := make request_id' None PyNone.

Definition is_error (self : t) : option bool := _response_is_error self.

Definition set_success (data : pyval) (self : t) : t :=
  make (request_id self) (Some false) data.

Definition set_error (code : Z) (message : string) (data : pyval) (self : t) : t :=
  make (request_id self) (Some true) (PyTuple [PyInt code; PyStr message; data]).

Definition success_data (self : t) : pyval := _data self.
Definition error_code (self : t) : result pyval := py_getitem_index (_data self) 0.
Definition error_message (self : t) : result pyval := py_getitem_index (_data self) 1.
Definition error_data (self : t) : result pyval := py_getitem_index (_data self) 2.
End RpcResult.

(** The truth value of what [is_error()] returns. *)
Definition truthy (b : option bool) : bool :=
  match b with Some true => true | _ => false end.

(** Truth value of a Python value. *)
Definition py_truthy (v : pyval) : bool :=
  match v with
  | PyNone => false
  | PyInt z => negb (Z.eqb z 0)
  | PyStr s => negb (String.eqb s "")
  | PyList l | PyTuple l | PySet l => negb (Nat.eqb (List.length l) 0)
  | PyDict d => negb (Nat.eqb (List.length d) 0)
  end.

(** [d.get(key)] on a dict of strings. *)
Definition dict_get_str (d : list (string * string)) (key : string) : pyval :=
  match dict_get d key with Some s => PyStr s | None => PyNone end.

(** ** system_methods.py *)

Section SystemMethods.
Variable HttpRequest : Type.

(** Everything a dispatched procedure can change. *)
Variable World : Type.

(** The names under which the dispatch pipeline passes its context to a
    procedure ([settings.MODERNRPC_KWARGS_*]). *)
Variables REQUEST_KEY ENTRY_POINT_KEY PROTOCOL_KEY HANDLER_KEY : string.

(** The protocol handler: [process_request] runs the dispatch pipeline for
    one request and hands back its result. *)
Record RPCHandler : Type := {
  process_request : HttpRequest -> RpcRequest.t -> World -> RpcResult.t * World
}.

(** The keyword arguments a system method is called with. *)
Record Kwargs : Type := {
  kw_request : option HttpRequest;
  kw_entry_point : option pyval;
  kw_protocol : option pyval;
  kw_handler : option RPCHandler
}.

(** [kwargs[key]] and [kwargs.get(key)] *)
Definition kwargs_getitem {A} (entry : option A) (key : string) : result A :=
  match entry with Some a => Return a | None => Raise (KeyError (PyStr key)) end.

Definition kwargs_get (entry : option pyval) : pyval :=
  match entry with Some v => v | None => PyNone end.

Definition __system_list_methods (registry : _RPCRegistry HttpRequest)
           (kwargs : Kwargs) : list string :=
  let entry_point := kwargs_get (kw_entry_point kwargs) in
  let protocol := kwargs_get (kw_protocol kwargs) in
  get_all_method_names registry entry_point protocol true.

Definition __system_method_signature (registry : _RPCRegistry HttpRequest)
           (method_name : string) (kwargs : Kwargs) : result (list pyval) :=
  let entry_point := kwargs_get (kw_entry_point kwargs) in
  let protocol := kwargs_get (kw_protocol kwargs) in
  (method <- get_method registry method_name entry_point protocol ;;
   match method with
   | None =>
       Raise (RPCInvalidParams ("Unknown method " ++ method_name
                                  ++ ". Unable to retrieve signature."))
   | Some method =>
       let signature :=
         ([dict_get_str (return_doc method) "type"]
            ++ map (fun arg_doc => dict_get_str arg_doc "type")
                   (dict_values (args_doc method)))%list in
       Return (filter py_truthy signature)
   end)%result.

Definition __system_method_help (registry : _RPCRegistry HttpRequest)
           (method_name : string) (kwargs : Kwargs) : result string :=
  let entry_point := kwargs_get (kw_entry_point kwargs) in
  let protocol := kwargs_get (kw_protocol kwargs) in
  (method <- get_method registry method_name entry_point protocol ;;
   match method with
   | None =>
       Raise (RPCInvalidParams ("Unknown method " ++ method_name
                                  ++ ". Unable to retrieve its documentation."))
   | Some method => Return (html_doc method)
   end)%result.

(** One turn of the loop of [system.multicall]: what is appended to
    [results], or the exception that leaves the loop. *)
Definition multi_call_step (handler : RPCHandler) (request : HttpRequest)
           (call : pyval) (w : World) : result pyval * World :=
  match (methodName <- py_getitem_key call "methodName" ;;
         params <- py_get call "params" ;;
         RpcRequest.init methodName params [])%result with
  | inl e => (Raise e, w)
  | inr rpc_request =>
      let (rpc_result, w') := process_request handler request rpc_request w in
      if truthy (RpcResult.is_error rpc_result) then
        ((faultCode <- RpcResult.error_code rpc_result ;;
          faultString <- RpcResult.error_message rpc_result ;;
          Return (PyDict [("faultCode", faultCode); ("faultString", faultString)])
         )%result, w')
      else
        (Return (PyList [RpcResult.success_data rpc_result]), w')
  end.

Fixpoint multi_call_loop (handler : RPCHandler) (request : HttpRequest)
         (calls results : list pyval) (w : World) : result (list pyval) * World :=
  match calls with
  | [] => (Return results, w)
  | call :: rest =>
      match multi_call_step handler request call w with
      | (inl e, w') => (Raise e, w')
      | (inr item, w') => multi_call_loop handler request rest (results ++ [item])%list w'
      end
  end.

Definition __system_multi_call (calls : pyval) (kwargs : Kwargs) (w : World)
  : result pyval * World :=
  match calls with
  | PyList calls' =>
      match (handler <- kwargs_getitem (kw_handler kwargs) HANDLER_KEY ;;
             request <- kwargs_getitem (kw_request kwargs) REQUEST_KEY ;;
             Return (handler, request))%result with
      | inl e => (Raise e, w)
      | inr (handler, request) =>
          match multi_call_loop handler request calls' [] w with
          | (inl e, w') => (Raise e, w')
          | (inr results, w') => (Return (PyList results), w')
          end
      end
  | _ =>
      (Raise (RPCInvalidParams ("system.multicall first argument should be a list, "
                                  ++ type_repr calls ++ " given.")), w)
  end.
End SystemMethods.

(** ** Vocabulary of the properties *)

Section Vocabulary.
Variable HttpRequest : Type.
Variable World : Type.

(** Every predicate has a parameter tuple at its index, and returns true on
    it. *)
Definition all_granted (request : HttpRequest) (params : list (list pyval))
           (preds : list (predicate HttpRequest)) : Prop :=
  forall i p, nth_error preds i = Some p ->
    exists ps, nth_error params i = Some ps /\ pred_call p request ps = true.

(** The type strings [system.methodSignature] draws on: the documented type
    when there is one, the introspected one otherwise. *)
Definition signature_return_type (method : RPCMethod HttpRequest) : string :=
  str_or (DocstringParser.return_type (doc_parser method))
         (Introspector.return_type (introspector method)).

Definition signature_arg_type (method : RPCMethod HttpRequest) (arg : string) : string :=
  str_or (dict_get_default (DocstringParser.args_types (doc_parser method)) arg "")
         (dict_get_default (Introspector.args_types (introspector method)) arg "").

Definition nonempty (t : string) : bool := negb (String.eqb t "").

(** The request [system.multicall] builds for one call descriptor. *)
Definition call_request (call : pyval) : result RpcRequest.t :=
  (methodName <- py_getitem_key call "methodName" ;;
   params <- py_get call "params" ;;
   RpcRequest.init methodName params [])%result.

(** A call descriptor: a struct with a [methodName] whose [params], when
    given, are a struct, a list, a set or a tuple. *)
Definition call_descriptor_ok (call : pyval) : bool :=
  match call with
  | PyDict d =>
      dict_contains d "methodName"
      && (let params := dict_get_default d "params" PyNone in
          is_none params || isinstance_dict params || isinstance_list_set_tuple params)
  | _ => false
  end.

(** An error result carries its (code, message, data) triple. *)
Definition error_carries_triple (r : RpcResult.t) : Prop :=
  RpcResult.is_error r = Some true ->
  exists code message data, RpcResult._data r = PyTuple [code; message; data].

(** What [system.multicall] reports for one result. *)
Inductive item_of_result : RpcResult.t -> pyval -> Prop :=
| item_fault (r : RpcResult.t) (code message data : pyval) :
    RpcResult.is_error r = Some true ->
    RpcResult._data r = PyTuple [code; message; data] ->
    item_of_result r (PyDict [("faultCode", code); ("faultString", message)])
| item_success (r : RpcResult.t) :
    RpcResult.is_error r <> Some true ->
    item_of_result r (PyList [RpcResult.success_data r]).

(** Every call of the list is dispatched, in order, each in the world its
    predecessor left, whatever the earlier results were. *)
Inductive dispatched (handler : RPCHandler HttpRequest World) (request : HttpRequest)
  : World -> list pyval -> list pyval -> World -> Prop :=
| dispatched_nil (w : World) : dispatched handler request w [] [] w
| dispatched_cons (w w1 w2 : World) (call item : pyval) (rpc_request : RpcRequest.t)
                  (rpc_result : RpcResult.t) (calls items : list pyval) :
    call_request call = Return rpc_request ->
    process_request handler request rpc_request w = (rpc_result, w1) ->
    item_of_result rpc_result item ->
    dispatched handler request w1 calls items w2 ->
    dispatched handler request w (call :: calls) (item :: items) w2.
End Vocabulary.

(** Calls of the setters of a result, in the order they are made. *)
Inductive setter : Type :=
| SetSuccess (data : pyval)
| SetError (code : Z) (message : string) (data : pyval).

Definition apply_setter (self : RpcResult.t) (op : setter) : RpcResult.t :=
  match op with
  | SetSuccess data => RpcResult.set_success data self
  | SetError code message data => RpcResult.set_error code message data self
  end.

Definition holds_success (self : RpcResult.t) (data : pyval) : Prop :=
  RpcResult._response_is_error self = Some false /\ RpcResult._data self = data.

Definition holds_error (self : RpcResult.t) (code : Z) (message : string) (data : pyval)
  : Prop :=
  RpcResult._response_is_error self = Some true
  /\ RpcResult._data self = PyTuple [PyInt code; PyStr message; data].

(** ** Sample data *)

Module Sample.
(** The caller context is the name of the logged-in user, the world counts
    the requests dispatched so far. *)
Definition HttpRequest : Type := string.
Definition World : Type := nat.

Definition no_doc : DocstringParser.t := DocstringParser.make "" "" [] [] "" "".

Definition plain (id : nat) (fname : string) (i : Introspector.t) : pyfunc HttpRequest :=
  {| fn_id := id; __name__ := fname;
     modernrpc_enabled := None; modernrpc_name := None;
     modernrpc_entry_point := None; modernrpc_protocol := None;
     modernrpc_auth_predicates := None; modernrpc_auth_predicates_params := None;
     introspection := i; docstring := no_doc |}.

(** [def square(x: int) -> int], [def ping()], and an undeclared-types
    [def echo(value)]. *)
Definition square_def : pyfunc HttpRequest :=
  plain 1 "square" (Introspector.make ["x"] [("x", "int")] "int" false).
Definition echo_def : pyfunc HttpRequest :=
  plain 2 "echo" (Introspector.make ["value"] [] "" false).

Definition square : pyfunc HttpRequest := rpc_method None ALL ALL square_def.
Definition echo : pyfunc HttpRequest := rpc_method None ALL ALL echo_def.
Definition admin_only : pyfunc HttpRequest :=
  rpc_method (Some "purge") (PyStr "admin") ALL
             (plain 3 "purge_all" (Introspector.make [] [] "" false)).
Definition other_square : pyfunc HttpRequest :=
  rpc_method (Some "square") ALL ALL
             (plain 4 "square_v2" (Introspector.make ["x"] [("x", "int")] "int" false)).
Definition reserved : pyfunc HttpRequest :=
  rpc_method (Some "rpc.reserved") ALL ALL
             (plain 5 "reserved" (Introspector.make [] [] "" false)).

Definition register_all (funcs : list (pyfunc HttpRequest)) : _RPCRegistry HttpRequest :=
  fold_left (fun self func => snd (register_method func self)) funcs empty_registry.

Definition registry : _RPCRegistry HttpRequest := register_all [square; echo; admin_only].

Definition is_logged : predicate HttpRequest :=
  {| pred_id := 10; pred_call := fun user _ => negb (String.eqb user "") |}.
Definition is_user : predicate HttpRequest :=
  {| pred_id := 11;
     pred_call := fun user params => py_in (PyStr user) params |}.

Definition guarded (preds : list (predicate HttpRequest)) (params : list (list pyval))
  : RPCMethod HttpRequest :=
  {| function := square; entry_point := ALL; protocol := ALL;
     predicates := Some preds; predicates_params := params;
     introspector := introspection square; doc_parser := docstring square |}.

Fixpoint sum_ints (l : list pyval) : Z :=
  match l with
  | PyInt z :: rest => (z + sum_ints rest)%Z
  | _ => 0%Z
  end.

(** The attribute [key] of a request, [None] when it has none. *)
Definition attribute (rpc_request : RpcRequest.t) (key : string) : pyval :=
  match RpcRequest.lookup rpc_request key with Some v => v | None => PyNone end.

(** A handler that knows [add] only. *)
Definition handler : RPCHandler HttpRequest World :=
  {| process_request := fun _ rpc_request w =>
       let rpc_result := RpcResult.init (attribute rpc_request "request_id") in
       if py_eq (attribute rpc_request "method_name") (PyStr "add") then
         (RpcResult.set_success
            (PyInt (sum_ints (ensure_sequence (attribute rpc_request "args"))))
            rpc_result, S w)
       else
         (RpcResult.set_error (-32601) "Method not found" PyNone rpc_result, S w) |}.

Definition kwargs : Kwargs HttpRequest World :=
  {| kw_request := Some "john"; kw_entry_point := Some (PyStr "public");
     kw_protocol := Some XMLRPC_PROTOCOL; kw_handler := Some handler |}.

Definition add_call : pyval :=
  PyDict [("methodName", PyStr "add"); ("params", PyList [PyInt 2; PyInt 3])].
Definition missing_call : pyval := PyDict [("methodName", PyStr "missing")].
Definition bad_params_call : pyval :=
  PyDict [("methodName", PyStr "add"); ("params", PyInt 5)].
End Sample.

(** ** The rest of core.py *)

Section CoreRest.
Variable HttpRequest : Type.

Definition __repr__ (self : RPCMethod HttpRequest) : string :=
  "RPC Method " ++ name self.

Definition __str__ (self : RPCMethod HttpRequest) : string :=
  name self ++ "(" ++ String.concat ", " (Introspector.args (introspector self)) ++ ")".

Definition is_available_in_json_rpc (self : RPCMethod HttpRequest) : bool :=
  available_for_protocol self JSONRPC_PROTOCOL.

Definition is_available_in_xml_rpc (self : RPCMethod HttpRequest) : bool :=
  available_for_protocol self XMLRPC_PROTOCOL.

Definition accept_kwargs (self : RPCMethod HttpRequest) : bool :=
  Introspector.accept_kwargs (introspector self).

Definition raw_docstring (self : RPCMethod HttpRequest) : string :=
  DocstringParser.raw_docstring (doc_parser self).

(** What [register_method] keeps true of the registry: the names are
    pairwise different, each descriptor sits under its own name, no name
    starts with [rpc.], and every registered function is enabled. *)
Definition registry_ok (self : _RPCRegistry HttpRequest) : Prop :=
  NoDup (map fst (_registry self))
  /\ Forall (fun item =>
               name (snd item) = fst item
               /\ String.prefix "rpc." (fst item) = false
               /\ getattr_default (modernrpc_enabled (function (snd item))) false = true)
            (_registry self).

(** The name [@rpc_method(name=...)] gives a function: [name or
    _func.__name__]. *)
Definition decorated_name (name' : option string) (_func : pyfunc HttpRequest) : string :=
  match name' with
  | Some n => str_or n (__name__ _func)
  | None => __name__ _func
  end.
(** The name a declaration is registered under:
    [getattr(func, 'modernrpc_name', func.__name__)]. *)
Definition declared_name (func : pyfunc HttpRequest) : string :=
  getattr_default (modernrpc_name func) (__name__ func).

(** Registering declarations one after the other, as importing the modules
    of a project does; a refused declaration leaves the registry as it
    was. *)
Definition register_each (funcs : list (pyfunc HttpRequest))
           (self : _RPCRegistry HttpRequest) : _RPCRegistry HttpRequest :=
  fold_left (fun self func => snd (register_method func self)) funcs self.
(** A declaration [register_each] will accept. *)
Definition registrable (self : _RPCRegistry HttpRequest) (func : pyfunc HttpRequest) : Prop :=
  getattr_default (modernrpc_enabled func) false = true
  /\ (exists method, RPCMethod_init func = Return method)
  /\ String.prefix "rpc." (declared_name func) = false
  /\ dict_get (_registry self) (declared_name func) = None.

End CoreRest.

(** An extra keyword argument the loop of [RpcRequest.__init__] cannot set:
    [__class__], [__weakref__], and [__dict__] unless its value is a dict. *)
Definition attribute_refused (kv : string * pyval) : bool :=
  String.eqb (fst kv) "__class__"
  || String.eqb (fst kv) "__weakref__"
  || (String.eqb (fst kv) "__dict__" && negb (isinstance_dict (snd kv))).

(** No keyword argument is named by one of [names]. *)
Definition names_none_of (names : list string) (kwargs' : list (string * pyval)) : bool :=
  forallb (fun kv => negb (existsb (String.eqb (fst kv)) names)) kwargs'.

(** The order [sorted] puts strings in. *)
Definition str_le (a b : string) : Prop := String.ltb b a = false.

(** The same order on values sorted by a string key. *)
Definition key_le (V : Type) (key : V -> string) (a b : V) : Prop :=
  str_le (key a) (key b).

Module Sample2.
Definition json_only : pyfunc Sample.HttpRequest :=
  rpc_method (Some "json.echo") ALL JSONRPC_PROTOCOL
             (Sample.plain 6 "json_echo" (Introspector.make ["value"] [] "" true)).

Definition documented : pyfunc Sample.HttpRequest :=
  rpc_method (Some "area") ALL ALL
    {| fn_id := 7; __name__ := "area";
       modernrpc_enabled := None; modernrpc_name := None;
       modernrpc_entry_point := None; modernrpc_protocol := None;
       modernrpc_auth_predicates := None; modernrpc_auth_predicates_params := None;
       introspection :=
         Introspector.make ["w"; "h"] [("w", "float"); ("h", "float")] "float" false;
       docstring :=
         DocstringParser.make "Area" "<p>Area</p>" [("w", "int")]
                              [("w", "width"); ("h", "height")] "" "the area" |}.
Definition method_of (func : pyfunc Sample.HttpRequest) (ep pr : pyval)
  : RPCMethod Sample.HttpRequest :=
  {| function := func; entry_point := ep; protocol := pr;
     predicates := modernrpc_auth_predicates func;
     predicates_params := getattr_default (modernrpc_auth_predicates_params func) [];
     introspector := introspection func; doc_parser := docstring func |}.

Definition json_method : RPCMethod Sample.HttpRequest :=
  method_of json_only ALL JSONRPC_PROTOCOL.
Definition documented_method : RPCMethod Sample.HttpRequest :=
  method_of documented ALL ALL.

(** A function with a predicate whose parameters were never set. *)
Definition unparametrised : pyfunc Sample.HttpRequest :=
  {| fn_id := 8; __name__ := "secret";
     modernrpc_enabled := Some true; modernrpc_name := Some "secret";
     modernrpc_entry_point := Some ALL; modernrpc_protocol := Some ALL;
     modernrpc_auth_predicates := Some [Sample.is_logged];
     modernrpc_auth_predicates_params := None;
     introspection := Introspector.make [] [] "" false;
     docstring := Sample.no_doc |}.
End Sample2.

(** * Properties *)

Unset Implicit Arguments.

(** ** Equality of values *)

Lemma seq_eq_refl (l : list pyval) :
  Forall (fun v => py_eq v v = true) l ->
  py_eq (PyList l) (PyList l) = true /\ py_eq (PyTuple l) (PyTuple l) = true.
Proof.
  induction 1 as [|x xs Hx _ [IHl IHt]]; simpl; [now split|].
  simpl in IHl, IHt. rewrite Hx, IHl. now split.
Qed.

Lemma py_eq_refl (v : pyval) : py_eq v v = true.
Proof.
  induction v as [ | z | s | l IH | l IH | l IH | d IH ] using pyval_nested_ind.
  - reflexivity.
  - apply Z.eqb_refl.
  - apply String.eqb_refl.
  - now apply seq_eq_refl.
  - now apply seq_eq_refl.
  - simpl. rewrite Forall_forall in IH.
    assert (H : forallb (fun x => existsb (fun y => py_eq x y) l) l = true).
    { apply forallb_forall. intros x Hx. apply existsb_exists.
      exists x. split; [assumption | now apply IH]. }
    assert (H' : forallb (fun y => existsb (fun x => py_eq x y) l) l = true).
    { apply forallb_forall. intros x Hx. apply existsb_exists.
      exists x. split; [assumption | now apply IH]. }
    now rewrite H, H'.
  - simpl. rewrite Forall_forall in IH.
    assert (H : forall kv, In kv d ->
                String.eqb (fst kv) (fst kv) && py_eq (snd kv) (snd kv) = true).
    { intros kv Hkv. rewrite String.eqb_refl. simpl. now apply IH. }
    apply andb_true_intro. split; apply forallb_forall; intros kv Hkv;
      apply existsb_exists; exists kv; auto.
Qed.

Section CoreProperties.
Variable HttpRequest : Type.

Local Abbreviation RPCMethod := (RPCMethod HttpRequest).
Local Abbreviation _RPCRegistry := (_RPCRegistry HttpRequest).
Local Abbreviation pyfunc := (pyfunc HttpRequest).
Local Abbreviation predicate := (predicate HttpRequest).

Lemma predicates_list_eq_refl (ps : list predicate) : predicates_list_eq ps ps = true.
Proof.
  induction ps as [|p ps IH]; simpl; [reflexivity|].
  now rewrite Nat.eqb_refl, IH.
Qed.

Lemma RPCMethod_eq_refl (m : RPCMethod) : RPCMethod_eq m m = true.
Proof.
  unfold RPCMethod_eq, function_eq, predicates_params_eq, predicates_eq.
  rewrite Nat.eqb_refl, String.eqb_refl, !py_eq_refl.
  destruct (predicates m); simpl; rewrite ?predicates_list_eq_refl; reflexivity.
Qed.

(** With the wildcard on the caller's side every descriptor applies. *)
Lemma is_valid_for_ALL (m : RPCMethod) : is_valid_for m ALL ALL = true.
Proof.
  unfold is_valid_for, available_for_entry_point, available_for_protocol, py_in.
  simpl. rewrite !orb_true_r. reflexivity.
Qed.

(** ** Lookup *)

Lemma get_method_unfold (self : _RPCRegistry) (n : string) (ep pr : pyval) :
  get_method self n ep pr =
  match dict_get (_registry self) n with
  | Some m => if is_valid_for m ep pr then Return (Some m) else Return None
  | None => Return None
  end.
Proof.
  unfold get_method, dict_contains, dict_getitem.
  destruct (dict_get (_registry self) n) as [m|]; simpl; [|reflexivity].
  destruct (is_valid_for m ep pr); reflexivity.
Qed.

(** C1: [get_method] always returns and never raises; what it returns is the
    descriptor stored under the name exactly when there is one and it is
    valid for the entry point and protocol asked for, and the sentinel
    [None] in every other case. *)
Theorem get_method_found_iff_valid (self : _RPCRegistry) (n : string) (ep pr : pyval) :
  (exists found, get_method self n ep pr = Return found)
  /\ (forall m, get_method self n ep pr = Return (Some m)
                <-> dict_get (_registry self) n = Some m
                    /\ is_valid_for m ep pr = true)
  /\ ((forall m, ~ (dict_get (_registry self) n = Some m
                    /\ is_valid_for m ep pr = true))
      <-> get_method self n ep pr = Return None).
Proof.
  rewrite get_method_unfold.
  destruct (dict_get (_registry self) n) as [m0|] eqn:Hget;
    [destruct (is_valid_for m0 ep pr) eqn:Hvalid|].
  - split; [now exists (Some m0)|]. split.
    + intros m. split.
      * intros [= <-]. now split.
      * intros [[= <-] _]. reflexivity.
    + split; [|discriminate].
      intros H. exfalso. now apply (H m0).
  - split; [now exists None|]. split.
    + intros m. split; [discriminate|].
      intros [[= <-] H]. congruence.
    + split; [reflexivity|].
      intros _ m [[= <-] H]. congruence.
  - split; [now exists None|]. split.
    + intros m. split; [discriminate|]. intros [[=] _].
    + split; [reflexivity|]. intros _ m [[=] _].
Qed.

(** ** Authorization *)

Lemma all_predicates_true_iff (request : HttpRequest) (params : list (list pyval))
      (preds : list predicate) :
  forall i,
    all_predicates request params i preds = Return true
    <-> (forall j p, nth_error preds j = Some p ->
           exists ps, nth_error params (i + j) = Some ps
                      /\ pred_call p request ps = true).
Proof.
  induction preds as [|p0 rest IH]; intros i; simpl.
  - split; [|reflexivity]. intros _ [|j] p; discriminate.
  - destruct (nth_error params i) as [ps0|] eqn:Hi.
    + destruct (pred_call p0 request ps0) eqn:Hp0.
      * rewrite IH. split.
        -- intros H [|j] p Hj; simpl in Hj.
           ++ injection Hj as <-. exists ps0. now rewrite Nat.add_0_r.
           ++ rewrite Nat.add_succ_r. now apply H.
        -- intros H j p Hj. specialize (H (S j) p Hj).
           now rewrite Nat.add_succ_r in H.
      * split; [discriminate|].
        intros H. destruct (H 0 p0 eq_refl) as [ps [Hps Hcall]].
        rewrite Nat.add_0_r in Hps. congruence.
    + split; [discriminate|].
      intros H. destruct (H 0 p0 eq_refl) as [ps [Hps _]].
      rewrite Nat.add_0_r in Hps. congruence.
Qed.

Lemma all_predicates_false (request : HttpRequest) (params : list (list pyval))
      (preds : list predicate) :
  forall i j p ps,
    nth_error preds j = Some p ->
    nth_error params (i + j) = Some ps ->
    pred_call p request ps = false ->
    all_predicates request params i preds = Return false.
Proof.
  induction preds as [|p0 rest IH]; intros i j p ps Hj Hps Hcall.
  - destruct j; discriminate.
  - simpl. destruct j as [|j]; simpl in Hj.
    + injection Hj as <-. rewrite Nat.add_0_r in Hps. now rewrite Hps, Hcall.
    + assert (Hlt : i < List.length params).
      { apply nth_error_Some. intros Hnone.
        assert (Hle : List.length params <= i + S j) by
          (apply Nat.le_trans with i; [now apply nth_error_None | lia]).
        apply nth_error_None in Hle. congruence. }
      destruct (nth_error params i) as [ps0|] eqn:Hi;
        [|apply nth_error_None in Hi; lia].
      destruct (pred_call p0 request ps0); [|reflexivity].
      apply (IH (S i) j p ps); auto. now rewrite Nat.add_succ_r in Hps.
Qed.

Lemma all_predicates_raises (request : HttpRequest) (params : list (list pyval))
      (preds : list predicate) :
  forall i,
    i <= List.length params ->
    List.length params < i + List.length preds ->
    (forall j p ps, nth_error preds j = Some p ->
                    nth_error params (i + j) = Some ps ->
                    pred_call p request ps = true) ->
    all_predicates request params i preds = Raise IndexError.
Proof.
  induction preds as [|p0 rest IH]; intros i Hle Hlt Hall; simpl in *; [lia|].
  destruct (nth_error params i) as [ps0|] eqn:Hi; [|reflexivity].
  assert (Hi' : i < List.length params) by (apply nth_error_Some; congruence).
  rewrite (Hall 0 p0 ps0 eq_refl) by now rewrite Nat.add_0_r.
  apply IH; [lia | lia |].
  intros j p ps Hj Hps. apply (Hall (S j) p ps); auto.
  now rewrite Nat.add_succ_r.
Qed.

Lemma all_predicates_returns (request : HttpRequest) (params : list (list pyval))
      (preds : list predicate) :
  forall i,
    i + List.length preds <= List.length params ->
    exists b, all_predicates request params i preds = Return b.
Proof.
  induction preds as [|p0 rest IH]; intros i Hle; simpl in *.
  - now exists true.
  - destruct (nth_error params i) as [ps0|] eqn:Hi;
      [|apply nth_error_None in Hi; lia].
    destruct (pred_call p0 request ps0); [apply IH; lia | now exists false].
Qed.

(** C3: with no predicates configured ([None] or an empty sequence)
    [check_permissions] returns true; otherwise it returns true exactly when
    every predicate, called with the request and the parameters found at its
    own index, returns true; and one predicate returning false on its
    parameters makes the result false. *)
Theorem check_permissions_conjunction (self : RPCMethod) (request : HttpRequest) :
  (predicates self = None \/ predicates self = Some [] ->
   check_permissions self request = Return true)
  /\ (forall preds, predicates self = Some preds ->
        (check_permissions self request = Return true
         <-> all_granted request (predicates_params self) preds))
  /\ (forall preds i p ps,
        predicates self = Some preds ->
        nth_error preds i = Some p ->
        nth_error (predicates_params self) i = Some ps ->
        pred_call p request ps = false ->
        check_permissions self request = Return false).
Proof.
  unfold check_permissions, all_granted. split; [|split].
  - intros [-> | ->]; reflexivity.
  - intros preds ->. destruct preds as [|p0 rest].
    + split; [|reflexivity]. intros _ [|i] p; discriminate.
    + apply (all_predicates_true_iff request (predicates_params self) (p0 :: rest) 0).
  - intros preds i p ps -> Hi Hps Hcall. destruct preds as [|p0 rest].
    + destruct i; discriminate.
    + now apply (all_predicates_false request (predicates_params self)
                   (p0 :: rest) 0 i p ps).
Qed.

(** C10: when there are more predicates than parameter tuples and every
    predicate that has a tuple at its index returns true, the evaluation
    indexes past the end of the tuples and raises instead of returning a
    boolean; when the tuples are at least as many as the predicates, a
    boolean is always returned. *)
Theorem check_permissions_index_precondition (self : RPCMethod) (request : HttpRequest) :
  (forall preds,
      predicates self = Some preds ->
      List.length (predicates_params self) < List.length preds ->
      (forall i p ps, nth_error preds i = Some p ->
                      nth_error (predicates_params self) i = Some ps ->
                      pred_call p request ps = true) ->
      check_permissions self request = Raise IndexError)
  /\ ((forall preds, predicates self = Some preds ->
                     List.length preds <= List.length (predicates_params self)) ->
      exists b, check_permissions self request = Return b).
Proof.
  unfold check_permissions. split.
  - intros preds -> Hlen Hall. destruct preds as [|p0 rest]; [simpl in Hlen; lia|].
    apply all_predicates_raises; [lia | simpl in *; lia | exact Hall].
  - intros Hlen. destruct (predicates self) as [[|p0 rest]|]; try now exists true.
    apply all_predicates_returns. simpl. apply (Hlen _ eq_refl).
Qed.

(** ** Registration *)

Lemma dict_get_set_same {V : Type} (d : list (string * V)) (k : string) (v : V) :
  dict_get (dict_set d k v) k = Some v.
Proof.
  induction d as [|[k' v'] rest IH]; simpl.
  - now rewrite String.eqb_refl.
  - destruct (String.eqb k' k) eqn:Hk; simpl; now rewrite Hk.
Qed.

Lemma get_method_ALL (self : _RPCRegistry) (n : string) :
  get_method self n ALL ALL = Return (dict_get (_registry self) n).
Proof.
  rewrite get_method_unfold.
  destruct (dict_get (_registry self) n) as [m|]; [|reflexivity].
  now rewrite is_valid_for_ALL.
Qed.

Lemma RPCMethod_init_function (func : pyfunc) (method : RPCMethod) :
  RPCMethod_init func = Return method -> function method = func.
Proof.
  unfold RPCMethod_init, getattr.
  destruct (modernrpc_entry_point func); [|discriminate].
  destruct (modernrpc_protocol func); [|discriminate].
  simpl. now intros [= <-].
Qed.

Lemma RPCMethod_init_raises (func : pyfunc) (e : exn) :
  RPCMethod_init func = Raise e -> exists attr, e = AttributeError attr.
Proof.
  unfold RPCMethod_init, getattr.
  destruct (modernrpc_entry_point func); simpl.
  - destruct (modernrpc_protocol func); simpl; [discriminate|].
    intros [= <-]. eauto.
  - intros [= <-]. eauto.
Qed.

(** A declaration whose descriptor equals the one stored under its name is
    accepted again, and nothing changes. *)
Lemma register_method_equal_descriptor
      (func : pyfunc) (self : _RPCRegistry) (method existing : RPCMethod) :
  getattr_default (modernrpc_enabled func) false = true ->
  String.prefix "rpc." (getattr_default (modernrpc_name func) (__name__ func)) = false ->
  RPCMethod_init func = Return method ->
  dict_get (_registry self) (name method) = Some existing ->
  RPCMethod_eq method existing = true ->
  register_method func self = (Return (name method), self).
Proof.
  intros Hen Hpre Hinit Hget Heq. unfold register_method.
  rewrite Hen, Hpre. simpl. unfold Return in Hinit. rewrite Hinit.
  rewrite get_method_ALL, Hget. unfold Return. now rewrite Heq.
Qed.

(** C4: when [register_method] has accepted a declaration, registering the
    same declaration again returns the same name and leaves the registry,
    and so its [total_count], as it was. *)
Theorem register_method_idempotent
        (func : pyfunc) (self self' : _RPCRegistry) (registered : string) :
  register_method func self = (Return registered, self') ->
  register_method func self' = (Return registered, self')
  /\ total_count (snd (register_method func self')) = total_count self'
  /\ _registry (snd (register_method func self')) = _registry self'.
Proof.
  intros Hfirst.
  assert (Hagain : register_method func self' = (Return registered, self')).
  { revert Hfirst. unfold register_method at 1.
    destruct (getattr_default (modernrpc_enabled func) false) eqn:Hen;
      simpl; [|discriminate].
    destruct (String.prefix "rpc." (getattr_default (modernrpc_name func) (__name__ func)))
      eqn:Hpre; [discriminate|].
    destruct (RPCMethod_init func) as [e|method] eqn:Hinit; [discriminate|].
    rewrite get_method_ALL. unfold Return.
    destruct (dict_get (_registry self) (name method)) as [existing|] eqn:Hget.
    - destruct (RPCMethod_eq method existing) eqn:Heq; [|discriminate].
      intros [= <- <-].
      now apply register_method_equal_descriptor with existing.
    - intros [= <- <-].
      apply register_method_equal_descriptor with method; auto.
      + simpl. apply dict_get_set_same.
      + apply RPCMethod_eq_refl. }
  rewrite Hagain. simpl. auto.
Qed.

(** C5: [register_method] raises a configuration error exactly when the
    declaration is not enabled, or its name starts with [rpc.], or the
    descriptor stored under its name differs from its own; and whenever it
    raises, the registry and its [total_count] are left as they were. *)
Theorem register_method_configuration_error (func : pyfunc) (self : _RPCRegistry) :
  (is_configuration_error (fst (register_method func self)) = true
   <-> getattr_default (modernrpc_enabled func) false = false
       \/ String.prefix "rpc." (getattr_default (modernrpc_name func) (__name__ func))
          = true
       \/ exists method existing,
            RPCMethod_init func = Return method
            /\ dict_get (_registry self) (name method) = Some existing
            /\ RPCMethod_eq method existing = false)
  /\ (raises (fst (register_method func self)) = true ->
      snd (register_method func self) = self
      /\ total_count (snd (register_method func self)) = total_count self).
Proof.
  unfold register_method.
  destruct (getattr_default (modernrpc_enabled func) false) eqn:Hen; simpl.
  2: { split; [split; auto | auto]. }
  destruct (String.prefix "rpc." (getattr_default (modernrpc_name func) (__name__ func)))
    eqn:Hpre; simpl.
  { split; [split; auto | auto]. }
  destruct (RPCMethod_init func) as [e|method] eqn:Hinit; simpl.
  { split; [|auto]. split.
    - destruct (RPCMethod_init_raises _ _ Hinit) as [attr ->]. discriminate.
    - intros [H | [H | (m & ex & H & _)]]; discriminate. }
  rewrite get_method_ALL. unfold Return.
  destruct (dict_get (_registry self) (name method)) as [existing|] eqn:Hget.
  - destruct (RPCMethod_eq method existing) eqn:Heq; simpl.
    + split; [|discriminate]. split; [discriminate|].
      intros [H | [H | (m & ex & [= <-] & Hm & Hne)]]; try discriminate.
      congruence.
    + split; [|auto]. split; [|reflexivity].
      intros _. right. right. now exists method, existing.
  - simpl. split; [|discriminate]. split; [discriminate|].
    intros [H | [H | (m & ex & [= <-] & Hm & _)]]; try discriminate.
    congruence.
Qed.

(** ** Listing *)

Lemma In_insert_sorted {V : Type} (key : V -> string) (x y : V) (l : list V) :
  In y (insert_sorted key x l) <-> y = x \/ In y l.
Proof.
  induction l as [|z rest IH]; simpl.
  - intuition.
  - destruct (String.ltb (key x) (key z)); simpl; [intuition|].
    rewrite IH. intuition.
Qed.

Lemma In_sorted {V : Type} (key : V -> string) (y : V) (l : list V) :
  In y (sorted key l) <-> In y l.
Proof.
  unfold sorted.
  assert (H : forall acc, In y (fold_left (fun acc x => insert_sorted key x acc) l acc)
                          <-> In y l \/ In y acc).
  { induction l as [|x rest IH]; intros acc; simpl; [intuition|].
    rewrite IH, In_insert_sorted. intuition. }
  rewrite H. simpl. intuition.
Qed.

(** The names listed are those of the descriptors valid for the pair asked
    for, sorted or not. *)
Lemma get_all_method_names_filter
      (self : _RPCRegistry) (ep pr : pyval) (sort_methods : bool) (n : string) :
  In n (get_all_method_names self ep pr sort_methods)
  <-> exists m, In (n, m) (_registry self) /\ is_valid_for m ep pr = true.
Proof.
  unfold get_all_method_names, dict_items.
  assert (H : In n (map fst (filter (fun item => is_valid_for (snd item) ep pr)
                                    (_registry self)))
              <-> exists m, In (n, m) (_registry self) /\ is_valid_for m ep pr = true).
  { rewrite in_map_iff. split.
    - intros [[n' m] [Hn Hin]]. simpl in Hn. subst n'.
      apply filter_In in Hin. now exists m.
    - intros [m [Hin Hv]]. exists (n, m). split; [reflexivity|].
      apply filter_In. now split. }
  destruct sort_methods; [rewrite In_sorted|]; exact H.
Qed.

(** With [sort_methods] set, [get_all_methods] applies the same filter. *)
Lemma get_all_methods_sorted_filter (self : _RPCRegistry) (ep pr : pyval) (m : RPCMethod) :
  In m (get_all_methods self ep pr true)
  <-> exists n, In (n, m) (_registry self) /\ is_valid_for m ep pr = true.
Proof.
  unfold get_all_methods, dict_items. rewrite in_map_iff. split.
  - intros [[n m'] [Hm Hin]]. simpl in Hm. subst m'.
    apply filter_In in Hin. destruct Hin as [Hin Hv].
    apply In_sorted in Hin. now exists n.
  - intros [n [Hin Hv]]. exists (n, m). split; [reflexivity|].
    apply filter_In. split; [now apply In_sorted | exact Hv].
Qed.
End CoreProperties.

(** ** System methods *)

Section SystemProperties.
Variable HttpRequest : Type.
Variable World : Type.
Variables REQUEST_KEY HANDLER_KEY : string.

Local Abbreviation RPCMethod := (RPCMethod HttpRequest).
Local Abbreviation _RPCRegistry := (_RPCRegistry HttpRequest).
Local Abbreviation Kwargs := (Kwargs HttpRequest World).
Local Abbreviation RPCHandler := (RPCHandler HttpRequest World).

Lemma dict_set_fresh {V : Type} (d : list (string * V)) (k : string) (v : V) :
  ~ In k (map fst d) -> dict_set d k v = (d ++ [(k, v)])%list.
Proof.
  induction d as [|[k' v'] rest IH]; simpl; intros Hfresh; [reflexivity|].
  destruct (String.eqb k' k) eqn:Hk.
  - apply String.eqb_eq in Hk. tauto.
  - rewrite IH; tauto.
Qed.

Lemma fold_dict_set_fresh {V : Type} (f : string -> V) (keys : list string) :
  forall acc : list (string * V),
    NoDup (map fst acc ++ keys) ->
    fold_left (fun result k => dict_set result k (f k)) keys acc
    = (acc ++ map (fun k => (k, f k)) keys)%list.
Proof.
  induction keys as [|k rest IH]; intros acc Hnodup; simpl.
  - now rewrite app_nil_r.
  - rewrite dict_set_fresh.
    + rewrite IH.
      * now rewrite <- app_assoc.
      * rewrite map_app. simpl. now rewrite <- app_assoc.
    + intros Hin. apply NoDup_remove_2 in Hnodup.
      apply Hnodup. apply in_or_app. now left.
Qed.

(** The type strings of [args_doc], one per argument, in declaration
    order. *)
Lemma args_doc_types (method : RPCMethod) :
  NoDup (args method) ->
  map (fun arg_doc => dict_get_str arg_doc "type") (dict_values (args_doc method))
  = map (fun arg => PyStr (signature_arg_type method arg)) (args method).
Proof.
  intros Hnodup. unfold args_doc, dict_values, args in *.
  unfold signature_arg_type.
  rewrite fold_dict_set_fresh by exact Hnodup.
  simpl. rewrite !map_map. reflexivity.
Qed.

Lemma filter_truthy_strings (types : list string) :
  filter py_truthy (map PyStr types) = map PyStr (filter nonempty types).
Proof.
  induction types as [|t rest IH]; simpl; [reflexivity|].
  unfold nonempty at 1. destruct (String.eqb t ""); simpl; now rewrite IH.
Qed.

Lemma filter_nonempty_none (f : string -> string) (l : list string) :
  (forall a, In a l -> f a = "") -> filter nonempty (map f l) = [].
Proof.
  induction l as [|a rest IH]; intros Hall; simpl; [reflexivity|].
  rewrite (Hall a) by now left. simpl. apply IH.
  intros b Hb. apply Hall. now right.
Qed.

(** C8: for a method that resolves for the caller's entry point and
    protocol, [system.methodSignature] returns the return type followed by
    the type of each argument in declaration order, without the empty type
    strings: [int; int] for an [int] function of one [int] argument, and the
    empty list when every type string is empty.  When the name does not
    resolve, it fails with invalid params. *)
Theorem system_method_signature_types
        (registry : _RPCRegistry) (method_name : string) (kwargs : Kwargs) :
  (forall method,
      get_method registry method_name
                 (kwargs_get (kw_entry_point kwargs)) (kwargs_get (kw_protocol kwargs))
      = Return (Some method) ->
      NoDup (args method) ->
      __system_method_signature registry method_name kwargs
      = Return (map PyStr
                    (filter nonempty
                            (signature_return_type method
                               :: map (signature_arg_type method) (args method))))
      /\ (forall x, args method = [x] ->
                    signature_return_type method = "int" ->
                    signature_arg_type method x = "int" ->
                    __system_method_signature registry method_name kwargs
                    = Return [PyStr "int"; PyStr "int"])
      /\ (signature_return_type method = "" ->
          (forall arg, In arg (args method) -> signature_arg_type method arg = "") ->
          __system_method_signature registry method_name kwargs = Return []))
  /\ (get_method registry method_name
                 (kwargs_get (kw_entry_point kwargs)) (kwargs_get (kw_protocol kwargs))
      = Return None ->
      is_invalid_params (__system_method_signature registry method_name kwargs) = true).
Proof.
  unfold __system_method_signature. split.
  - intros method Hget Hnodup. rewrite Hget. unfold bind, Return. cbv beta iota.
    assert (Hsig : filter py_truthy
                     ([dict_get_str (return_doc method) "type"]
                        ++ map (fun arg_doc => dict_get_str arg_doc "type")
                               (dict_values (args_doc method)))%list
                   = map PyStr
                         (filter nonempty
                                 (signature_return_type method
                                    :: map (signature_arg_type method) (args method)))).
    { rewrite args_doc_types by exact Hnodup.
      rewrite <- filter_truthy_strings. simpl map. rewrite map_map. reflexivity. }
    rewrite Hsig. split; [reflexivity|]. split.
    + intros x Hargs Hret Hx. rewrite Hargs. simpl. now rewrite Hret, Hx.
    + intros Hret Hall. rewrite Hret. simpl.
      now rewrite filter_nonempty_none.
  - intros Hget. rewrite Hget. reflexivity.
Qed.

Lemma call_descriptor_request (call : pyval) :
  call_descriptor_ok call = true -> exists rpc_request, call_request call = Return rpc_request.
Proof.
  destruct call as [ | | | | | | d]; try discriminate. simpl.
  unfold call_request, py_getitem_key, py_get, dict_getitem, dict_contains.
  destruct (dict_get d "methodName") as [methodName|]; [|discriminate]. simpl.
  unfold RpcRequest.init, RpcRequest.init_params.
  destruct (dict_get_default d "params" PyNone); simpl; try discriminate; eauto.
Qed.

Lemma multi_call_step_item (handler : RPCHandler) (request : HttpRequest)
      (call : pyval) (w w1 : World) (rpc_request : RpcRequest.t) (rpc_result : RpcResult.t) :
  call_request call = Return rpc_request ->
  process_request handler request rpc_request w = (rpc_result, w1) ->
  error_carries_triple rpc_result ->
  exists item, multi_call_step handler request call w = (Return item, w1)
               /\ item_of_result rpc_result item.
Proof.
  intros Hreq Hproc Hwf. unfold multi_call_step.
  unfold call_request, Return in Hreq. rewrite Hreq, Hproc.
  destruct (RpcResult.is_error rpc_result) as [[|]|] eqn:Herr; simpl.
  - destruct (Hwf Herr) as (code & message & data & Hdata).
    unfold RpcResult.error_code, RpcResult.error_message. rewrite Hdata. simpl.
    eexists. split; [reflexivity|]. now apply item_fault with data.
  - eexists. split; [reflexivity|]. apply item_success. congruence.
  - eexists. split; [reflexivity|]. apply item_success. congruence.
Qed.

Lemma multi_call_loop_dispatches (handler : RPCHandler) (request : HttpRequest) :
  (forall rpc_request w,
      error_carries_triple (fst (process_request handler request rpc_request w))) ->
  forall calls results w,
    forallb call_descriptor_ok calls = true ->
    exists items w',
      multi_call_loop handler request calls results w
      = (Return (results ++ items)%list, w')
      /\ List.length items = List.length calls
      /\ dispatched handler request w calls items w'.
Proof.
  intros Hwf. induction calls as [|call rest IH]; intros results w Hok; simpl.
  - exists [], w. rewrite app_nil_r. repeat split. constructor.
  - simpl in Hok. apply andb_prop in Hok. destruct Hok as [Hcall Hrest].
    destruct (call_descriptor_request call Hcall) as [rpc_request Hreq].
    destruct (process_request handler request rpc_request w) as [rpc_result w1] eqn:Hproc.
    assert (Htriple : error_carries_triple rpc_result).
    { specialize (Hwf rpc_request w). now rewrite Hproc in Hwf. }
    destruct (multi_call_step_item handler request call w w1 rpc_request rpc_result
                Hreq Hproc Htriple) as (item & Hstep & Hitem).
    rewrite Hstep. unfold Return.
    destruct (IH (results ++ [item])%list w1 Hrest) as (items & w' & Hloop & Hlen & Hdisp).
    exists (item :: items), w'. rewrite Hloop. repeat split.
    + now rewrite <- app_assoc.
    + simpl. now rewrite Hlen.
    + now apply dispatched_cons with w1 rpc_request rpc_result.
Qed.

(** C2, as the code has it: an input that is not a list fails with invalid
    params.  For a list of call descriptors, handed to a handler whose
    error results carry their triple, the call returns a list of the same
    length, holding for each call in input order the fault struct of its
    error result or the one-element list around its success payload; every
    call is dispatched whatever the results before it were. *)
Theorem system_multi_call_results (calls : pyval) (kwargs : Kwargs) (w : World) :
  (isinstance_list calls = false ->
   is_invalid_params (fst (__system_multi_call REQUEST_KEY HANDLER_KEY calls kwargs w))
   = true)
  /\ (forall handler request calls',
        calls = PyList calls' ->
        kw_handler kwargs = Some handler ->
        kw_request kwargs = Some request ->
        forallb call_descriptor_ok calls' = true ->
        (forall rpc_request w0,
            error_carries_triple (fst (process_request handler request rpc_request w0))) ->
        exists items w',
          __system_multi_call REQUEST_KEY HANDLER_KEY calls kwargs w
          = (Return (PyList items), w')
          /\ List.length items = List.length calls'
          /\ dispatched handler request w calls' items w').
Proof.
  split.
  - destruct calls; simpl; intros H; try reflexivity; discriminate.
  - intros handler request calls' -> Hhandler Hrequest Hok Hwf.
    unfold __system_multi_call. rewrite Hhandler, Hrequest. simpl.
    destruct (multi_call_loop_dispatches handler request Hwf calls' [] w Hok)
      as (items & w' & Hloop & Hlen & Hdisp).
    exists items, w'. rewrite Hloop. simpl. auto.
Qed.
End SystemProperties.

(** ** Request and result envelopes *)

Lemma dict_get_set_other {V : Type} (d : list (string * V)) (k k' : string) (v : V) :
  k <> k' -> dict_get (dict_set d k v) k' = dict_get d k'.
Proof.
  intros Hne. induction d as [|[k0 v0] rest IH]; simpl.
  - destruct (String.eqb k k') eqn:Hk; [apply String.eqb_eq in Hk; contradiction|].
    reflexivity.
  - destruct (String.eqb k0 k) eqn:Hk0; simpl.
    + apply String.eqb_eq in Hk0. subst k0.
      destruct (String.eqb k k') eqn:Hk; [apply String.eqb_eq in Hk; contradiction|].
      reflexivity.
    + now rewrite IH.
Qed.

Lemma lookup_store_same (self : RpcRequest.t) (k : string) (v : pyval) :
  RpcRequest.lookup (RpcRequest.store self k v) k = Some v.
Proof. unfold RpcRequest.lookup, RpcRequest.store. simpl. apply dict_get_set_same. Qed.

Lemma lookup_store_other (self : RpcRequest.t) (k k' : string) (v : pyval) :
  k <> k' ->
  RpcRequest.lookup (RpcRequest.store self k v) k' = RpcRequest.lookup self k'.
Proof.
  intros Hne. unfold RpcRequest.lookup, RpcRequest.store. simpl.
  now apply dict_get_set_other.
Qed.

(** Away from [__class__], [__dict__] and [__weakref__], [setattr] stores. *)
Lemma setattr_stores (self : RpcRequest.t) (k : string) (v : pyval) :
  String.eqb k "__class__" = false ->
  String.eqb k "__dict__" = false ->
  String.eqb k "__weakref__" = false ->
  RpcRequest.setattr self k v = Return (RpcRequest.store self k v).
Proof. intros H1 H2 H3. unfold RpcRequest.setattr. now rewrite H1, H2, H3. Qed.

Lemma setattrs_untouched (kwargs' : list (string * pyval)) :
  names_none_of ["args"; "kwargs"; "__class__"; "__dict__"; "__weakref__"] kwargs' = true ->
  forall self,
    exists self',
      RpcRequest.setattrs kwargs' self = Return self'
      /\ RpcRequest.args self' = RpcRequest.args self
      /\ RpcRequest.kwargs self' = RpcRequest.kwargs self.
Proof.
  induction kwargs' as [|[k v] rest IH]; intros Hnames self; simpl in *.
  - now exists self.
  - apply andb_prop in Hnames. destruct Hnames as [Hk Hrest].
    apply negb_true_iff in Hk. rewrite !orb_false_r in Hk.
    repeat (apply orb_false_elim in Hk; destruct Hk as [? Hk]).
    rewrite setattr_stores by assumption. simpl.
    destruct (IH Hrest (RpcRequest.store self k v)) as (self' & Hset & Hargs & Hkwargs).
    exists self'. split; [exact Hset|].
    unfold RpcRequest.args, RpcRequest.kwargs in *.
    rewrite Hargs, Hkwargs. split; apply lookup_store_other; intros ->; discriminate.
Qed.

(** C9, as the code has it: with parameters supplied, an extra keyword
    argument named [self], [method_name] or [params] makes the call raise
    [TypeError].  Without such a keyword, parameters that are neither a
    dict nor a list, set or tuple make the constructor raise [ValueError],
    whatever the other extra keyword arguments; and when no extra keyword
    argument is named [args], [kwargs], [__class__], [__dict__] or
    [__weakref__], a dict becomes [kwargs] and leaves [args] the empty list,
    and a list, set or tuple becomes [args] and leaves [kwargs] the empty
    dict. *)
Theorem RpcRequest_init_params_exclusive
        (method_name params : pyval) (kwargs' : list (string * pyval)) :
  is_none params = false ->
  (RpcRequest.keyword_clash kwargs' = true ->
   RpcRequest.init method_name params kwargs' = Raise TypeError)
  /\ (RpcRequest.keyword_clash kwargs' = false ->
      (isinstance_dict params = false ->
       isinstance_list_set_tuple params = false ->
       exists msg, RpcRequest.init method_name params kwargs' = Raise (ValueError msg))
      /\ (names_none_of ["args"; "kwargs"; "__class__"; "__dict__"; "__weakref__"] kwargs'
          = true ->
          (isinstance_dict params = true ->
           exists self, RpcRequest.init method_name params kwargs' = Return self
                        /\ RpcRequest.kwargs self = Some params
                        /\ RpcRequest.args self = Some (PyList []))
          /\ (isinstance_list_set_tuple params = true ->
              exists self, RpcRequest.init method_name params kwargs' = Return self
                           /\ RpcRequest.args self = Some params
                           /\ RpcRequest.kwargs self = Some (PyDict [])))).
Proof.
  intros Hsome. unfold RpcRequest.init. split; [now intros ->|].
  intros ->. unfold RpcRequest.init_params, dict_items.
  rewrite Hsome. simpl negb. cbv iota. split.
  - intros -> ->. simpl. eauto.
  - intros Hnames. split.
    + intros ->. simpl bind.
      match goal with
      | |- context [RpcRequest.setattrs kwargs' ?s] =>
          destruct (setattrs_untouched kwargs' Hnames s) as (self' & Hset & Hargs & Hkw)
      end.
      rewrite Hset. exists self'. rewrite Hargs, Hkw. now repeat split.
    + intros Hseq. rewrite Hseq.
      assert (Hdict : isinstance_dict params = false) by now destruct params.
      rewrite Hdict. simpl bind.
      match goal with
      | |- context [RpcRequest.setattrs kwargs' ?s] =>
          destruct (setattrs_untouched kwargs' Hnames s) as (self' & Hset & Hargs & Hkw)
      end.
      rewrite Hset. exists self'. rewrite Hargs, Hkw. now repeat split.
Qed.

(** C7, as the code has it: a fresh result holds no outcome; after any
    calls of the setters it holds exactly the outcome of the last call,
    [is_error()] tells which, and the accessors return its parts. *)
Theorem RpcResult_holds_last_outcome (request_id : pyval) :
  (RpcResult.is_error (RpcResult.init request_id) = None
   /\ RpcResult.success_data (RpcResult.init request_id) = PyNone)
  /\ forall (ops : list setter) (op : setter),
      let self := fold_left apply_setter (ops ++ [op])%list (RpcResult.init request_id) in
      match op with
      | SetSuccess data =>
          RpcResult.is_error self = Some false
          /\ holds_success self data
          /\ RpcResult.success_data self = data
          /\ (forall code message data', ~ holds_error self code message data')
      | SetError code message data =>
          RpcResult.is_error self = Some true
          /\ holds_error self code message data
          /\ RpcResult.error_code self = Return (PyInt code)
          /\ RpcResult.error_message self = Return (PyStr message)
          /\ RpcResult.error_data self = Return data
          /\ (forall data', ~ holds_success self data')
      end.
Proof.
  split; [now split|].
  intros ops op self. subst self. rewrite fold_left_app. simpl.
  destruct op as [data | code message data]; simpl;
    unfold holds_success, holds_error; simpl; repeat split;
    intros; intros [H _]; discriminate.
Qed.

(** ** The properties at work on the sample data *)

Example sample_registry_names :
  get_all_method_names Sample.registry ALL ALL false = ["square"; "echo"; "purge"]
  /\ get_all_method_names Sample.registry ALL ALL true = ["echo"; "purge"; "square"]
  /\ total_count Sample.registry = 3.
Proof. repeat split. Qed.

Example sample_reserved_prefix :
  register_method Sample.reserved Sample.registry
  = (Raise (ImproperlyConfigured reserved_prefix_msg), Sample.registry).
Proof. reflexivity. Qed.

Lemma get_method_found_iff_valid_witness :
  get_method Sample.registry "purge" (PyStr "public") ALL = Return None
  /\ exists m, get_method Sample.registry "purge" (PyStr "admin") JSONRPC_PROTOCOL
               = Return (Some m).
Proof.
  split.
  - apply (proj2 (proj2 (get_method_found_iff_valid
                           Sample.HttpRequest Sample.registry "purge" (PyStr "public") ALL))).
    intros m [Hget Hvalid]. vm_compute in Hget. injection Hget as <-.
    vm_compute in Hvalid. discriminate.
  - eexists.
    apply (proj1 (proj2 (get_method_found_iff_valid
                           Sample.HttpRequest Sample.registry "purge" (PyStr "admin")
                           JSONRPC_PROTOCOL))).
    split; vm_compute; reflexivity.
Defined.

Lemma check_permissions_conjunction_witness :
  check_permissions
    (Sample.guarded [Sample.is_logged; Sample.is_user] [[]; [PyStr "john"]]) "mallory"
  = Return false.
Proof.
  apply (proj2 (proj2 (check_permissions_conjunction Sample.HttpRequest
                         (Sample.guarded [Sample.is_logged; Sample.is_user]
                                         [[]; [PyStr "john"]]) "mallory"))
           [Sample.is_logged; Sample.is_user] 1 Sample.is_user [PyStr "john"]);
    reflexivity.
Defined.

Lemma check_permissions_index_precondition_witness :
  check_permissions (Sample.guarded [Sample.is_logged; Sample.is_user] [[]]) "john"
  = Raise IndexError.
Proof.
  apply (proj1 (check_permissions_index_precondition Sample.HttpRequest
                  (Sample.guarded [Sample.is_logged; Sample.is_user] [[]]) "john")
           [Sample.is_logged; Sample.is_user]).
  - reflexivity.
  - simpl. lia.
  - intros [|[|i]] p ps Hp Hps; simpl in Hp, Hps; try discriminate.
    injection Hp as <-. injection Hps as <-. reflexivity.
Defined.

Lemma register_method_idempotent_witness :
  register_method Sample.square (Sample.register_all [Sample.echo; Sample.square])
  = (Return "square", Sample.register_all [Sample.echo; Sample.square]).
Proof.
  apply (register_method_idempotent Sample.HttpRequest Sample.square
           (Sample.register_all [Sample.echo])
           (Sample.register_all [Sample.echo; Sample.square]) "square").
  reflexivity.
Defined.

Lemma register_method_configuration_error_witness :
  is_configuration_error (fst (register_method Sample.other_square Sample.registry)) = true
  /\ snd (register_method Sample.other_square Sample.registry) = Sample.registry.
Proof.
  assert (H : is_configuration_error
                (fst (register_method Sample.other_square Sample.registry)) = true).
  { apply (proj1 (register_method_configuration_error Sample.HttpRequest
                    Sample.other_square Sample.registry)).
    right. right. eexists. eexists. repeat split. }
  split; [exact H|].
  apply (proj2 (register_method_configuration_error Sample.HttpRequest
                  Sample.other_square Sample.registry)).
  reflexivity.
Defined.

(** C6: without [sort_methods], [get_all_methods] for the entry point
    [public] hands out the descriptor registered for [admin] only, which
    [get_all_method_names] and the sorted listing both leave out. *)
Theorem get_all_methods_unsorted_skips_filter :
  map (@name _) (get_all_methods Sample.registry (PyStr "public") ALL false)
  = ["square"; "echo"; "purge"]
  /\ get_all_method_names Sample.registry (PyStr "public") ALL false = ["square"; "echo"]
  /\ map (@name _) (get_all_methods Sample.registry (PyStr "public") ALL true)
     = ["echo"; "square"]
  /\ exists m, In m (get_all_methods Sample.registry (PyStr "public") ALL false)
               /\ is_valid_for m (PyStr "public") ALL = false.
Proof.
  repeat split.
  eexists. split; [right; right; left; reflexivity | reflexivity].
Qed.

Lemma system_method_signature_types_witness :
  __system_method_signature Sample.registry "square" Sample.kwargs
  = Return [PyStr "int"; PyStr "int"]
  /\ __system_method_signature Sample.registry "echo" Sample.kwargs = Return []
  /\ is_invalid_params (__system_method_signature Sample.registry "purge" Sample.kwargs)
     = true.
Proof.
  split; [|split].
  - eapply (proj1 (system_method_signature_types Sample.HttpRequest Sample.World
                     Sample.registry "square" Sample.kwargs)).
    + reflexivity.
    + repeat constructor. simpl. tauto.
    + reflexivity.
    + reflexivity.
    + reflexivity.
  - eapply (proj1 (system_method_signature_types Sample.HttpRequest Sample.World
                     Sample.registry "echo" Sample.kwargs)).
    + reflexivity.
    + repeat constructor. simpl. tauto.
    + reflexivity.
    + intros arg [<- | []]. reflexivity.
  - apply (proj2 (system_method_signature_types Sample.HttpRequest Sample.World
                    Sample.registry "purge" Sample.kwargs)).
    reflexivity.
Defined.

Lemma sample_handler_results (request : Sample.HttpRequest) (rpc_request : RpcRequest.t)
      (w : Sample.World) :
  error_carries_triple (fst (process_request Sample.handler request rpc_request w)).
Proof.
  unfold error_carries_triple. simpl.
  destruct (py_eq (Sample.attribute rpc_request "method_name") (PyStr "add")); simpl.
  - discriminate.
  - intros _. now exists (PyInt (-32601)), (PyStr "Method not found"), PyNone.
Qed.

Example sample_multi_call :
  __system_multi_call "request" "handler"
                      (PyList [Sample.add_call; Sample.missing_call]) Sample.kwargs 0
  = (Return (PyList [PyList [PyInt 5];
                     PyDict [("faultCode", PyInt (-32601));
                             ("faultString", PyStr "Method not found")]]), 2).
Proof. reflexivity. Qed.

Lemma system_multi_call_results_witness :
  exists items w',
    __system_multi_call "request" "handler"
                        (PyList [Sample.missing_call; Sample.add_call]) Sample.kwargs 0
    = (Return (PyList items), w')
    /\ List.length items = 2
    /\ dispatched Sample.handler "john" 0 [Sample.missing_call; Sample.add_call] items w'.
Proof.
  apply (proj2 (system_multi_call_results Sample.HttpRequest Sample.World
                  "request" "handler"
                  (PyList [Sample.missing_call; Sample.add_call]) Sample.kwargs 0)
           Sample.handler "john" [Sample.missing_call; Sample.add_call]).
  - reflexivity.
  - reflexivity.
  - reflexivity.
  - reflexivity.
  - intros rpc_request w0. apply sample_handler_results.
Defined.

(** A list whose first call carries an integer as [params] makes
    [system.multicall] raise [ValueError]: no list is returned, and the
    second call, a good one, is never dispatched. *)
Lemma system_multi_call_aborts_on_bad_params :
  __system_multi_call "request" "handler"
                      (PyList [Sample.bad_params_call; Sample.add_call]) Sample.kwargs 0
  = (Raise (ValueError "RPCRequest initial params has an unsupported type: <class 'int'>"),
     0)
  /\ isinstance_list (PyList [Sample.bad_params_call; Sample.add_call]) = true
  /\ ~ (exists items w',
           __system_multi_call "request" "handler"
                               (PyList [Sample.bad_params_call; Sample.add_call])
                               Sample.kwargs 0
           = (Return (PyList items), w')).
Proof.
  split; [reflexivity|]. split; [reflexivity|].
  intros (items & w' & H). vm_compute in H. discriminate.
Qed.

Lemma RpcRequest_init_params_exclusive_witness :
  exists self,
    RpcRequest.init (PyStr "add") (PyList [PyInt 2; PyInt 3]) [("request_id", PyInt 7)]
    = Return self
    /\ RpcRequest.args self = Some (PyList [PyInt 2; PyInt 3])
    /\ RpcRequest.kwargs self = Some (PyDict []).
Proof.
  apply (proj2 (proj2 (proj2 (RpcRequest_init_params_exclusive
                                (PyStr "add") (PyList [PyInt 2; PyInt 3])
                                [("request_id", PyInt 7)] eq_refl) eq_refl) eq_refl)).
  reflexivity.
Defined.

(** An extra keyword argument named [kwargs] is set after the parameters:
    constructed from a list of parameters, the request ends with both [args]
    and [kwargs] filled. *)
Lemma RpcRequest_init_both_populated :
  RpcRequest.init (PyStr "add") (PyList [PyInt 2; PyInt 3])
                  [("kwargs", PyDict [("x", PyInt 1)])]
  = Return (RpcRequest.make [("request_id", PyNone); ("method_name", PyStr "add");
                             ("args", PyList [PyInt 2; PyInt 3]);
                             ("kwargs", PyDict [("x", PyInt 1)])])
  /\ is_none (PyList [PyInt 2; PyInt 3]) = false
  /\ ~ (exists self,
           RpcRequest.init (PyStr "add") (PyList [PyInt 2; PyInt 3])
                           [("kwargs", PyDict [("x", PyInt 1)])]
           = Return self
           /\ RpcRequest.kwargs self = Some (PyDict [])).
Proof.
  split; [reflexivity|]. split; [reflexivity|].
  intros (self & Hinit & Hkwargs). vm_compute in Hinit.
  injection Hinit as <-. discriminate.
Qed.

Lemma RpcResult_holds_last_outcome_witness :
  holds_error
    (fold_left apply_setter [SetSuccess (PyInt 5); SetError 1 "boom" PyNone]
               (RpcResult.init PyNone))
    1 "boom" PyNone.
Proof.
  apply (proj2 (RpcResult_holds_last_outcome PyNone)
           [SetSuccess (PyInt 5)] (SetError 1 "boom" PyNone)).
Defined.

(** A fresh result holds neither a payload nor an error triple, and
    [set_error] after [set_success] replaces the payload held by the error
    triple. *)
Lemma RpcResult_outcome_overwritten :
  (RpcResult.is_error (RpcResult.init PyNone) = None
   /\ (forall data, ~ holds_success (RpcResult.init PyNone) data)
   /\ (forall code message data, ~ holds_error (RpcResult.init PyNone) code message data))
  /\ holds_success (RpcResult.set_success (PyInt 5) (RpcResult.init PyNone)) (PyInt 5)
  /\ ~ holds_success
       (RpcResult.set_error 1 "boom" PyNone
          (RpcResult.set_success (PyInt 5) (RpcResult.init PyNone)))
       (PyInt 5)
  /\ holds_error
       (RpcResult.set_error 1 "boom" PyNone
          (RpcResult.set_success (PyInt 5) (RpcResult.init PyNone)))
       1 "boom" PyNone.
Proof.
  unfold holds_success, holds_error. simpl. repeat split;
    try (intros; intros [H _]; discriminate).
Qed.

(** * Further properties *)

From Stdlib Require Import Sorted Permutation OrderedTypeEx.

(** ** Dicts *)

Lemma dict_get_None_iff {V : Type} (d : list (string * V)) (k : string) :
  dict_get d k = None <-> ~ In k (map fst d).
Proof.
  induction d as [|[k0 v0] rest IH]; simpl; [tauto|].
  destruct (String.eqb k0 k) eqn:Hk.
  - apply String.eqb_eq in Hk. split; [discriminate | tauto].
  - apply String.eqb_neq in Hk. rewrite IH. tauto.
Qed.

Lemma dict_get_In {V : Type} (d : list (string * V)) (k : string) (v : V) :
  dict_get d k = Some v -> In (k, v) d.
Proof.
  induction d as [|[k0 v0] rest IH]; simpl; [discriminate|].
  destruct (String.eqb k0 k) eqn:Hk.
  - apply String.eqb_eq in Hk. intros [= <-]. left. now subst.
  - intros H. right. now apply IH.
Qed.

Lemma NoDup_In_dict_get {V : Type} (d : list (string * V)) (k : string) (v : V) :
  NoDup (map fst d) -> In (k, v) d -> dict_get d k = Some v.
Proof.
  induction d as [|[k0 v0] rest IH]; simpl; intros Hnodup Hin; [contradiction|].
  inversion Hnodup as [|? ? Hfresh Hrest]; subst.
  destruct Hin as [[= -> ->] | Hin].
  - now rewrite String.eqb_refl.
  - destruct (String.eqb k0 k) eqn:Hk.
    + apply String.eqb_eq in Hk. subst k0. exfalso. apply Hfresh.
      apply in_map_iff. now exists (k, v).
    + now apply IH.
Qed.

(** ** The registry as [register_method] grows it *)

Section RegistryProperties.
Variable HttpRequest : Type.

Local Abbreviation RPCMethod := (RPCMethod HttpRequest).
Local Abbreviation _RPCRegistry := (_RPCRegistry HttpRequest).
Local Abbreviation pyfunc := (pyfunc HttpRequest).

(** What a successful [register_method] did. *)
Lemma register_method_returns (func : pyfunc) (self self' : _RPCRegistry) (n : string) :
  register_method func self = (Return n, self') ->
  getattr_default (modernrpc_enabled func) false = true
  /\ String.prefix "rpc." n = false
  /\ exists method,
      RPCMethod_init func = Return method
      /\ n = name method
      /\ ((exists existing, dict_get (_registry self) n = Some existing
                            /\ RPCMethod_eq method existing = true
                            /\ self' = self)
          \/ (dict_get (_registry self) n = None
              /\ self' = {| _registry := dict_set (_registry self) n method |})).
Proof.
  unfold register_method.
  destruct (getattr_default (modernrpc_enabled func) false) eqn:Hen;
    simpl; [|discriminate].
  destruct (String.prefix "rpc." (getattr_default (modernrpc_name func) (__name__ func)))
    eqn:Hpre; [discriminate|].
  destruct (RPCMethod_init func) as [e|method] eqn:Hinit; [discriminate|].
  assert (Hname : name method = getattr_default (modernrpc_name func) (__name__ func)).
  { unfold name. now rewrite (RPCMethod_init_function _ _ _ Hinit). }
  rewrite get_method_ALL. unfold Return.
  destruct (dict_get (_registry self) (name method)) as [existing|] eqn:Hget.
  - destruct (RPCMethod_eq method existing) eqn:Heq; [|discriminate].
    intros [= <- <-]. split; [reflexivity|]. split; [now rewrite Hname|].
    exists method. split; [reflexivity|]. split; [reflexivity|].
    left. now exists existing.
  - intros [= <- <-]. split; [reflexivity|]. split; [now rewrite Hname|].
    exists method. split; [reflexivity|]. split; [reflexivity|].
    right. now split.
Qed.

Lemma register_method_raises_unchanged (func : pyfunc) (self : _RPCRegistry) :
  raises (fst (register_method func self)) = true ->
  snd (register_method func self) = self.
Proof.
  unfold register_method.
  destruct (getattr_default (modernrpc_enabled func) false); simpl; [|reflexivity].
  destruct (String.prefix "rpc." (getattr_default (modernrpc_name func) (__name__ func)));
    [reflexivity|].
  destruct (RPCMethod_init func) as [e|method]; [reflexivity|].
  rewrite get_method_ALL. unfold Return.
  destruct (dict_get (_registry self) (name method)) as [existing|].
  - destruct (RPCMethod_eq method existing); reflexivity.
  - discriminate.
Qed.

(** Either way out of [register_method]. *)
Lemma register_method_outcome (func : pyfunc) (self : _RPCRegistry) :
  (raises (fst (register_method func self)) = true
   /\ snd (register_method func self) = self)
  \/ exists n, register_method func self = (Return n, snd (register_method func self)).
Proof.
  destruct (register_method func self) as [[e|n] self'] eqn:Hreg.
  - left. split; [reflexivity|].
    change self' with (snd (inl e : result string, self')). rewrite <- Hreg.
    apply register_method_raises_unchanged. now rewrite Hreg.
  - right. now exists n.
Qed.

(** X1: the empty and the reset registry are well-formed, and
    [register_method] keeps a registry well-formed whatever it is given:
    names stay pairwise different, every descriptor sits under its own name,
    no name starts with [rpc.] and every registered function is enabled. *)
Theorem register_method_keeps_registry_ok :
  registry_ok (@empty_registry HttpRequest)
  /\ (forall self : _RPCRegistry, registry_ok (reset self))
  /\ (forall (func : pyfunc) (self : _RPCRegistry),
         registry_ok self -> registry_ok (snd (register_method func self))).
Proof.
  split; [|split].
  - split; constructor.
  - intros self. split; constructor.
  - intros func self [Hnodup Hall].
    destruct (register_method_outcome func self) as [[_ ->] | [n Hreg]];
      [now split|].
    destruct (register_method_returns _ _ _ _ Hreg)
      as (Hen & Hpre & method & Hinit & -> & [(ex & _ & _ & Heq) | [Hnone Heq]]);
      rewrite Heq; [now split|].
    unfold registry_ok. simpl.
    apply dict_get_None_iff in Hnone.
    rewrite dict_set_fresh by exact Hnone. split.
    + rewrite map_app. simpl.
      apply NoDup_app; repeat split; auto.
      * repeat constructor. simpl. tauto.
      * intros k Hk [<- | []]. contradiction.
    + apply Forall_app. split; [exact Hall|].
      constructor; [|constructor]. simpl. repeat split; auto.
      now rewrite (RPCMethod_init_function _ _ _ Hinit).
Qed.

(** X2: when [register_method] accepts a declaration under a name that was
    free, the count grows by one, the name is listed last among all names,
    and looking the name up returns the descriptor built from the
    declaration. *)
Theorem register_method_new_name
        (func : pyfunc) (self self' : _RPCRegistry) (n : string) :
  register_method func self = (Return n, self') ->
  dict_get (_registry self) n = None ->
  total_count self' = S (total_count self)
  /\ get_all_method_names self' ALL ALL false
     = (get_all_method_names self ALL ALL false ++ [n])%list
  /\ exists method, RPCMethod_init func = Return method
                    /\ get_method self' n ALL ALL = Return (Some method).
Proof.
  intros Hreg Hfree.
  destruct (register_method_returns _ _ _ _ Hreg)
    as (_ & _ & method & Hinit & Hn & [(ex & Hex & _) | [_ ->]]); [congruence|].
  apply dict_get_None_iff in Hfree.
  unfold total_count, get_all_method_names, dict_len, dict_items. simpl.
  rewrite dict_set_fresh by exact Hfree. split; [|split].
  - rewrite length_app. simpl. lia.
  - rewrite filter_app, map_app. simpl. now rewrite is_valid_for_ALL.
  - exists method. split; [exact Hinit|].
    rewrite get_method_ALL. simpl. rewrite <- dict_set_fresh by exact Hfree.
    now rewrite dict_get_set_same.
Qed.

(** X3: [register_method] never removes or replaces an entry: whatever is
    stored under a name before the call is stored under it after the call,
    and the count never shrinks. *)
Theorem register_method_keeps_entries (func : pyfunc) (self : _RPCRegistry) :
  (forall n m, dict_get (_registry self) n = Some m ->
               dict_get (_registry (snd (register_method func self))) n = Some m)
  /\ total_count self <= total_count (snd (register_method func self)).
Proof.
  destruct (register_method_outcome func self) as [[_ ->] | [n0 Hreg]];
    [split; auto|].
  destruct (register_method_returns _ _ _ _ Hreg)
    as (_ & _ & method & _ & _ & [(ex & _ & _ & ->) | [Hnone ->]]);
    [split; auto|].
  split.
  - intros n m Hget. simpl. rewrite dict_get_set_other; [exact Hget | congruence].
  - unfold total_count, dict_len. simpl.
    rewrite dict_set_fresh by now apply dict_get_None_iff.
    rewrite length_app. lia.
Qed.

(** X4: after [reset] nothing resolves and nothing is counted, and a
    declaration the registry had accepted is accepted again, under the same
    name, as the only entry. *)
Theorem reset_clears_registry (self : _RPCRegistry) :
  total_count (reset self) = 0
  /\ (forall n ep pr, get_method (reset self) n ep pr = Return None)
  /\ (forall ep pr sort_methods,
         get_all_method_names (reset self) ep pr sort_methods = []
         /\ get_all_methods (reset self) ep pr sort_methods = [])
  /\ (forall func before n,
         register_method func before = (Return n, self) ->
         exists method,
           RPCMethod_init func = Return method
           /\ register_method func (reset self)
              = (Return n, {| _registry := [(n, method)] |})).
Proof.
  split; [reflexivity|]. split; [reflexivity|]. split.
  - intros ep pr [|]; split; reflexivity.
  - intros func before n Hreg.
    destruct (register_method_returns _ _ _ _ Hreg)
      as (Hen & Hpre & method & Hinit & Hn & _).
    exists method. split; [exact Hinit|].
    assert (Hname : name method = getattr_default (modernrpc_name func) (__name__ func)).
    { unfold name. now rewrite (RPCMethod_init_function _ _ _ Hinit). }
    unfold register_method. rewrite Hen. cbn [negb]. cbv beta iota zeta.
    rewrite <- Hname, <- Hn, Hpre.
    unfold Return in Hinit. rewrite Hinit. rewrite <- Hn.
    rewrite get_method_ALL. reflexivity.
Qed.
End RegistryProperties.

(** ** [sorted] *)

Lemma ltb_asym (a b : string) : String.ltb a b = true -> String.ltb b a = false.
Proof.
  unfold String.ltb. rewrite (String.compare_antisym b a).
  destruct (String.compare a b); simpl; congruence.
Qed.

Lemma ltb_le_trans (a b c : string) :
  String.ltb a b = true -> String.ltb c b = false -> String.ltb a c = true.
Proof.
  unfold String.ltb. intros Hab Hcb.
  destruct (String.compare a b) eqn:Cab; try discriminate.
  apply String_as_OT.cmp_lt in Cab.
  rewrite (String.compare_antisym c b) in Hcb.
  destruct (String.compare b c) eqn:Cbc; simpl in Hcb; try discriminate.
  - apply String_as_OT.cmp_eq in Cbc. subst c.
    apply String_as_OT.cmp_lt in Cab. unfold String_as_OT.cmp in Cab. now rewrite Cab.
  - apply String_as_OT.cmp_lt in Cbc.
    pose proof (String_as_OT.lt_trans _ _ _ Cab Cbc) as Hac.
    apply String_as_OT.cmp_lt in Hac. unfold String_as_OT.cmp in Hac. now rewrite Hac.
Qed.

Section SortedProperties.
Variable V : Type.
Variable key : V -> string.

Local Abbreviation key_le := (key_le key).

Lemma key_le_trans (a b c : V) : key_le a b -> key_le b c -> key_le a c.
Proof.
  unfold key_le, str_le. intros Hab Hbc.
  destruct (String.ltb (key c) (key a)) eqn:Hca; [|reflexivity].
  rewrite (ltb_le_trans _ _ _ Hca Hab) in Hbc. discriminate.
Qed.

Lemma insert_sorted_perm (x : V) (l : list V) :
  Permutation (insert_sorted key x l) (x :: l).
Proof.
  induction l as [|y rest IH]; simpl; [reflexivity|].
  destruct (String.ltb (key x) (key y)); [reflexivity|].
  rewrite IH. apply perm_swap.
Qed.

Lemma sorted_perm (l : list V) : Permutation (sorted key l) l.
Proof.
  unfold sorted.
  assert (H : forall acc, Permutation
                            (fold_left (fun acc x => insert_sorted key x acc) l acc)
                            (acc ++ l)).
  { induction l as [|x rest IH]; intros acc; simpl.
    - now rewrite app_nil_r.
    - rewrite IH, insert_sorted_perm. apply Permutation_middle. }
  apply (H []).
Qed.

Lemma insert_sorted_StronglySorted (x : V) (l : list V) :
  StronglySorted key_le l -> StronglySorted key_le (insert_sorted key x l).
Proof.
  induction 1 as [|y rest Hrest IH Hy]; simpl.
  - repeat constructor.
  - destruct (String.ltb (key x) (key y)) eqn:Hxy.
    + constructor; [now constructor|].
      assert (Hle : key_le x y) by (now apply ltb_asym).
      constructor; [exact Hle|].
      eapply Forall_impl; [|exact Hy]. intros z Hz. now apply key_le_trans with y.
    + constructor; [exact IH|].
      eapply Permutation_Forall; [symmetry; apply insert_sorted_perm|].
      constructor; [exact Hxy | exact Hy].
Qed.

Lemma sorted_StronglySorted (l : list V) : StronglySorted key_le (sorted key l).
Proof.
  unfold sorted.
  assert (H : forall acc, StronglySorted key_le acc ->
                          StronglySorted key_le
                            (fold_left (fun acc x => insert_sorted key x acc) l acc)).
  { induction l as [|x rest IH]; intros acc Hacc; simpl; [exact Hacc|].
    apply IH. now apply insert_sorted_StronglySorted. }
  apply H. constructor.
Qed.

Lemma insert_sorted_below (x : V) (l : list V) :
  Forall (fun z => String.ltb (key x) (key z) = true) l ->
  insert_sorted key x l = x :: l.
Proof.
  destruct l as [|z rest]; simpl; [reflexivity|].
  intros H. inversion H as [|? ? Hz _]; subst. now rewrite Hz.
Qed.

(** Filtering commutes with inserting into a sorted list. *)
Lemma filter_insert_sorted (P : V -> bool) (x : V) (l : list V) :
  StronglySorted key_le l ->
  filter P (insert_sorted key x l)
  = if P x then insert_sorted key x (filter P l) else filter P l.
Proof.
  induction 1 as [|y rest Hrest IH Hy]; simpl.
  - destruct (P x); reflexivity.
  - destruct (String.ltb (key x) (key y)) eqn:Hxy; simpl.
    + destruct (P x) eqn:Hx; [|reflexivity].
      destruct (P y); simpl; [now rewrite Hxy|].
      rewrite insert_sorted_below; [reflexivity|].
      apply Forall_forall. intros z Hz. apply filter_In in Hz. destruct Hz as [Hz _].
      rewrite Forall_forall in Hy. apply ltb_le_trans with (key y); [exact Hxy|].
      apply (Hy z Hz).
    + rewrite IH. destruct (P y), (P x); simpl; try reflexivity. now rewrite Hxy.
Qed.

Lemma filter_sorted (P : V -> bool) (l : list V) :
  filter P (sorted key l) = sorted key (filter P l).
Proof.
  unfold sorted.
  assert (H : forall acc, StronglySorted key_le acc ->
                filter P (fold_left (fun acc x => insert_sorted key x acc) l acc)
                = fold_left (fun acc x => insert_sorted key x acc)
                            (filter P l) (filter P acc)).
  { induction l as [|x rest IH]; intros acc Hacc; simpl; [reflexivity|].
    rewrite IH by now apply insert_sorted_StronglySorted.
    rewrite filter_insert_sorted by exact Hacc.
    destruct (P x); reflexivity. }
  apply (H []). constructor.
Qed.

Lemma map_insert_sorted (x : V) (l : list V) :
  map key (insert_sorted key x l) = insert_sorted (fun s => s) (key x) (map key l).
Proof.
  induction l as [|y rest IH]; simpl; [reflexivity|].
  destruct (String.ltb (key x) (key y)); simpl; [reflexivity|]. now rewrite IH.
Qed.

Lemma map_sorted (l : list V) :
  map key (sorted key l) = sorted (fun s => s) (map key l).
Proof.
  unfold sorted.
  assert (H : forall acc,
             map key (fold_left (fun acc x => insert_sorted key x acc) l acc)
             = fold_left (fun acc x => insert_sorted (fun s => s) x acc)
                         (map key l) (map key acc)).
  { induction l as [|x rest IH]; intros acc; simpl; [reflexivity|].
    now rewrite IH, map_insert_sorted. }
  apply (H []).
Qed.
End SortedProperties.

(** ** Listing and lookup *)

Section ListingProperties.
Variable HttpRequest : Type.

Local Abbreviation RPCMethod := (RPCMethod HttpRequest).
Local Abbreviation _RPCRegistry := (_RPCRegistry HttpRequest).

(** X5: the sorted listing of names is in ascending order and holds the
    very names of the unsorted listing, each as often. *)
Theorem get_all_method_names_sorted (self : _RPCRegistry) (ep pr : pyval) :
  StronglySorted str_le (get_all_method_names self ep pr true)
  /\ Permutation (get_all_method_names self ep pr true)
                 (get_all_method_names self ep pr false).
Proof.
  unfold get_all_method_names. split.
  - apply (sorted_StronglySorted string (fun s => s)).
  - apply sorted_perm.
Qed.

Lemma filter_valid_ALL (items : list (string * RPCMethod)) :
  filter (fun item => is_valid_for (snd item) ALL ALL) items = items.
Proof.
  induction items as [|item rest IH]; simpl; [reflexivity|].
  now rewrite is_valid_for_ALL, IH.
Qed.

(** X6: asked with the wildcard for entry point and protocol, the listings
    leave nothing out: the unsorted names are the registered names in
    storage order, and every listing is as long as [total_count]. *)
Theorem listings_with_ALL_are_complete (self : _RPCRegistry) (sort_methods : bool) :
  get_all_method_names self ALL ALL false = map fst (_registry self)
  /\ List.length (get_all_method_names self ALL ALL sort_methods) = total_count self
  /\ List.length (get_all_methods self ALL ALL sort_methods) = total_count self.
Proof.
  assert (Hnames : get_all_method_names self ALL ALL false = map fst (_registry self)).
  { unfold get_all_method_names, dict_items. now rewrite filter_valid_ALL. }
  split; [exact Hnames|]. split.
  - destruct sort_methods.
    + unfold get_all_method_names, dict_items. rewrite filter_valid_ALL.
      rewrite (Permutation_length (sorted_perm string (fun s => s) _)).
      apply length_map.
    + rewrite Hnames. apply length_map.
  - unfold get_all_methods, total_count, dict_len, dict_items, dict_values.
    destruct sort_methods; [|apply length_map].
    rewrite filter_sorted, filter_valid_ALL, length_map.
    apply Permutation_length, sorted_perm.
Qed.
End ListingProperties.

Section LookupProperties.
Variable HttpRequest : Type.
Variable World : Type.

Local Abbreviation RPCMethod := (RPCMethod HttpRequest).
Local Abbreviation _RPCRegistry := (_RPCRegistry HttpRequest).
Local Abbreviation pyfunc := (pyfunc HttpRequest).
Local Abbreviation Kwargs := (Kwargs HttpRequest World).

Lemma listed_iff_resolves_aux (self : _RPCRegistry) (n : string) (ep pr : pyval) :
  NoDup (map fst (_registry self)) ->
  (exists m, In (n, m) (_registry self) /\ is_valid_for m ep pr = true)
  <-> exists m, get_method self n ep pr = Return (Some m).
Proof.
  intros Hnodup. rewrite get_method_unfold. split.
  - intros [m [Hin Hvalid]]. exists m.
    now rewrite (NoDup_In_dict_get _ _ _ Hnodup Hin), Hvalid.
  - intros [m Hget].
    destruct (dict_get (_registry self) n) as [m0|] eqn:Hn; [|discriminate].
    destruct (is_valid_for m0 ep pr) eqn:Hvalid; [|discriminate].
    injection Hget as <-. exists m0. split; [now apply dict_get_In | exact Hvalid].
Qed.

(** X7: in a registry whose names are pairwise different, a name is listed
    by [get_all_method_names] for an entry point and protocol, sorted or
    not, exactly when [get_method] resolves it for them. *)
Theorem listed_iff_resolves
        (self : _RPCRegistry) (n : string) (ep pr : pyval) (sort_methods : bool) :
  NoDup (map fst (_registry self)) ->
  (In n (get_all_method_names self ep pr sort_methods)
   <-> exists m, get_method self n ep pr = Return (Some m)).
Proof.
  intros Hnodup. rewrite get_all_method_names_filter.
  now apply listed_iff_resolves_aux.
Qed.

(** X8: in a well-formed registry the descriptor [get_method] returns for a
    name carries that name, the name does not start with [rpc.], and the
    function behind it is enabled. *)
Theorem get_method_returns_named
        (self : _RPCRegistry) (n : string) (ep pr : pyval) (m : RPCMethod) :
  registry_ok self ->
  get_method self n ep pr = Return (Some m) ->
  name m = n
  /\ String.prefix "rpc." n = false
  /\ getattr_default (modernrpc_enabled (function m)) false = true.
Proof.
  intros [_ Hall] Hget. rewrite get_method_unfold in Hget.
  destruct (dict_get (_registry self) n) as [m0|] eqn:Hn; [|discriminate].
  destruct (is_valid_for m0 ep pr); [|discriminate].
  injection Hget as <-. apply dict_get_In in Hn.
  rewrite Forall_forall in Hall. exact (Hall _ Hn).
Qed.

(** X9: in a registry where every descriptor sits under its own name, the
    sorted listing of descriptors and the sorted listing of names go
    together: the names of the former are the latter, in the same order. *)
Theorem sorted_methods_match_sorted_names (self : _RPCRegistry) (ep pr : pyval) :
  Forall (fun item => name (snd item) = fst item) (_registry self) ->
  map (@name HttpRequest) (get_all_methods self ep pr true)
  = get_all_method_names self ep pr true.
Proof.
  intros Hall. unfold get_all_methods, get_all_method_names, dict_items.
  rewrite map_map.
  rewrite <- (map_sorted (string * RPCMethod) fst), <- filter_sorted.
  apply map_ext_in. intros item Hin.
  apply filter_In in Hin. destruct Hin as [Hin _]. apply In_sorted in Hin.
  rewrite Forall_forall in Hall. now apply Hall.
Qed.

Lemma get_method_cases (self : _RPCRegistry) (n : string) (ep pr : pyval) :
  (exists m, get_method self n ep pr = Return (Some m))
  \/ get_method self n ep pr = Return None.
Proof.
  rewrite get_method_unfold.
  destruct (dict_get (_registry self) n) as [m|]; [|now right].
  destruct (is_valid_for m ep pr); [left; now exists m | now right].
Qed.

(** X10: in a registry whose names are pairwise different,
    [system.methodSignature] and [system.methodHelp] answer for exactly the
    names [system.listMethods] lists for the same caller, [methodHelp] with
    the rendered documentation of the method, and both fail with invalid
    params for every other name. *)
Theorem system_methods_answer_listed_names
        (registry : _RPCRegistry) (method_name : string) (kwargs : Kwargs) :
  NoDup (map fst (_registry registry)) ->
  (In method_name (__system_list_methods registry kwargs) ->
   (exists types, __system_method_signature registry method_name kwargs = Return types)
   /\ (exists method,
          get_method registry method_name
                     (kwargs_get (kw_entry_point kwargs)) (kwargs_get (kw_protocol kwargs))
          = Return (Some method)
          /\ __system_method_help registry method_name kwargs
             = Return (html_doc method)))
  /\ (~ In method_name (__system_list_methods registry kwargs) ->
      is_invalid_params (__system_method_signature registry method_name kwargs) = true
      /\ is_invalid_params (__system_method_help registry method_name kwargs) = true).
Proof.
  intros Hnodup.
  unfold __system_list_methods, __system_method_signature, __system_method_help.
  rewrite get_all_method_names_filter.
  rewrite (listed_iff_resolves_aux registry method_name _ _ Hnodup).
  split.
  - intros [method Hget]. rewrite Hget. simpl. split; eauto.
  - intros Hnone.
    destruct (get_method_cases registry method_name
                (kwargs_get (kw_entry_point kwargs)) (kwargs_get (kw_protocol kwargs)))
      as [[method Hget] | Hget]; [exfalso; eauto|].
    rewrite Hget. now split.
Qed.
End LookupProperties.

(** ** Declarations and descriptors *)

Section DescriptorProperties.
Variable HttpRequest : Type.

Local Abbreviation RPCMethod := (RPCMethod HttpRequest).
Local Abbreviation _RPCRegistry := (_RPCRegistry HttpRequest).
Local Abbreviation pyfunc := (pyfunc HttpRequest).

Lemma register_method_built_raises
      (func : pyfunc) (self : _RPCRegistry) (method : RPCMethod) :
  RPCMethod_init func = Return method ->
  raises (fst (register_method func self)) = true ->
  is_configuration_error (fst (register_method func self)) = true.
Proof.
  intros Hinit. unfold register_method.
  destruct (getattr_default (modernrpc_enabled func) false); simpl; [|reflexivity].
  destruct (String.prefix "rpc." (getattr_default (modernrpc_name func) (__name__ func)));
    [reflexivity|].
  unfold Return in Hinit. rewrite Hinit. rewrite get_method_ALL. unfold Return.
  destruct (dict_get (_registry self) (name method)) as [existing|]; [|discriminate].
  destruct (RPCMethod_eq method existing); [discriminate | reflexivity].
Qed.

Lemma register_method_fresh
      (func : pyfunc) (self : _RPCRegistry) (method : RPCMethod) :
  getattr_default (modernrpc_enabled func) false = true ->
  RPCMethod_init func = Return method ->
  String.prefix "rpc." (name method) = false ->
  dict_get (_registry self) (name method) = None ->
  register_method func self
  = (Return (name method),
     {| _registry := dict_set (_registry self) (name method) method |}).
Proof.
  intros Hen Hinit Hpre Hfree.
  assert (Hname : name method = getattr_default (modernrpc_name func) (__name__ func)).
  { unfold name. now rewrite (RPCMethod_init_function _ _ _ Hinit). }
  unfold register_method. rewrite Hen. cbn [negb]. cbv beta iota zeta.
  rewrite <- Hname, Hpre. unfold Return in Hinit. rewrite Hinit.
  rewrite get_method_ALL. unfold Return. now rewrite Hfree.
Qed.

(** X11: a function decorated with [@rpc_method] always yields a descriptor,
    named by the decorator's [name], or by the function's own name when
    that is missing or empty, and carrying the decorator's entry point and
    protocol; [register_method] can refuse it with a configuration error
    only, and accepts it under that name whenever the name is free and does
    not start with [rpc.]. *)
Theorem rpc_method_registers
        (name' : option string) (ep pr : pyval) (func : pyfunc) (self : _RPCRegistry) :
  exists method,
    RPCMethod_init (rpc_method name' ep pr func) = Return method
    /\ name method = decorated_name name' func
    /\ entry_point method = ep
    /\ protocol method = pr
    /\ (raises (fst (register_method (rpc_method name' ep pr func) self)) = true ->
        is_configuration_error (fst (register_method (rpc_method name' ep pr func) self))
        = true)
    /\ (String.prefix "rpc." (decorated_name name' func) = false ->
        dict_get (_registry self) (decorated_name name' func) = None ->
        register_method (rpc_method name' ep pr func) self
        = (Return (decorated_name name' func),
           {| _registry := dict_set (_registry self) (decorated_name name' func) method |})).
Proof.
  eexists. split; [reflexivity|]. split; [reflexivity|].
  split; [reflexivity|]. split; [reflexivity|]. split.
  - now apply register_method_built_raises with
        (method := {| function := rpc_method name' ep pr func;
                      entry_point := ep; protocol := pr;
                      predicates := modernrpc_auth_predicates func;
                      predicates_params :=
                        getattr_default (modernrpc_auth_predicates_params func) [];
                      introspector := introspection func;
                      doc_parser := docstring func |}).
  - intros Hpre Hfree.
    now apply (register_method_fresh (rpc_method name' ep pr func) self
                 {| function := rpc_method name' ep pr func;
                    entry_point := ep; protocol := pr;
                    predicates := modernrpc_auth_predicates func;
                    predicates_params :=
                      getattr_default (modernrpc_auth_predicates_params func) [];
                    introspector := introspection func;
                    doc_parser := docstring func |}).
Qed.

Lemma dict_get_fold_dict_set {V : Type} (f : string -> V) (keys : list string) (k : string) :
  forall acc : list (string * V),
    dict_get (fold_left (fun result key => dict_set result key (f key)) keys acc) k
    = if in_dec string_dec k keys then Some (f k) else dict_get acc k.
Proof.
  induction keys as [|key rest IH]; intros acc; [reflexivity|].
  simpl fold_left. rewrite IH.
  destruct (in_dec string_dec k rest) as [Hin | Hnin].
  - destruct (in_dec string_dec k (key :: rest)) as [_ | Hnin']; [reflexivity|].
    exfalso. apply Hnin'. now right.
  - destruct (string_dec key k) as [-> | Hne].
    + rewrite dict_get_set_same.
      destruct (in_dec string_dec k (k :: rest)) as [_ | Hnin']; [reflexivity|].
      exfalso. apply Hnin'. now left.
    + rewrite dict_get_set_other by exact Hne.
      destruct (in_dec string_dec k (key :: rest)) as [[Heq | Hin] | _];
        [contradiction | contradiction | reflexivity].
Qed.

(** X12: [args_doc] has an entry for an argument name exactly when the
    function has that argument; the entry's text is the documented text and
    its type is the type the docstring declares, or the introspected type
    when the docstring declares none. *)
Theorem args_doc_lookup (self : RPCMethod) (arg : string) :
  (In arg (args self) ->
   dict_get (args_doc self) arg
   = Some [("type", signature_arg_type self arg);
           ("text", dict_get_default (DocstringParser.args_doc (doc_parser self)) arg "")])
  /\ (~ In arg (args self) -> dict_get (args_doc self) arg = None)
  /\ (dict_get_default (DocstringParser.args_types (doc_parser self)) arg "" <> "" ->
      signature_arg_type self arg
      = dict_get_default (DocstringParser.args_types (doc_parser self)) arg "")
  /\ (dict_get_default (DocstringParser.args_types (doc_parser self)) arg "" = "" ->
      signature_arg_type self arg
      = dict_get_default (Introspector.args_types (introspector self)) arg "").
Proof.
  unfold args_doc, args, signature_arg_type.
  rewrite dict_get_fold_dict_set.
  destruct (in_dec string_dec arg (Introspector.args (introspector self))) as [Hin | Hnin].
  - split; [reflexivity|]. split; [contradiction|].
    unfold str_or. split.
    + intros Hne. destruct (String.eqb _ "") eqn:He; [|reflexivity].
      apply String.eqb_eq in He. contradiction.
    + intros ->. reflexivity.
  - split; [contradiction|]. split; [reflexivity|].
    unfold str_or. split.
    + intros Hne. destruct (String.eqb _ "") eqn:He; [|reflexivity].
      apply String.eqb_eq in He. contradiction.
    + intros ->. reflexivity.
Qed.

(** X13: a descriptor declared for a single protocol identifier is
    available in JSON-RPC when the identifier is the wildcard or the
    JSON-RPC one, in XML-RPC when it is the wildcard or the XML-RPC one,
    and so in both only when it is the wildcard. *)
Theorem single_protocol_availability (self : RPCMethod) (p : string) :
  protocol self = PyStr p ->
  is_available_in_json_rpc self = String.eqb p "__all__" || String.eqb p "__json_rpc"
  /\ is_available_in_xml_rpc self = String.eqb p "__all__" || String.eqb p "__xml_rpc"
  /\ (is_available_in_json_rpc self && is_available_in_xml_rpc self = true
      <-> p = "__all__").
Proof.
  intros Hp.
  assert (Hjson : is_available_in_json_rpc self
                  = String.eqb p "__all__" || String.eqb p "__json_rpc").
  { unfold is_available_in_json_rpc, available_for_protocol, py_in. rewrite Hp.
    cbn [existsb ensure_sequence py_eq ALL JSONRPC_PROTOCOL].
    change (String.eqb "__json_rpc" "__all__") with false.
    rewrite !orb_false_r. now destruct (String.eqb p "__all__"). }
  assert (Hxml : is_available_in_xml_rpc self
                 = String.eqb p "__all__" || String.eqb p "__xml_rpc").
  { unfold is_available_in_xml_rpc, available_for_protocol, py_in. rewrite Hp.
    cbn [existsb ensure_sequence py_eq ALL XMLRPC_PROTOCOL].
    change (String.eqb "__xml_rpc" "__all__") with false.
    rewrite !orb_false_r. now destruct (String.eqb p "__all__"). }
  split; [exact Hjson|]. split; [exact Hxml|].
  rewrite Hjson, Hxml. split.
  - destruct (String.eqb p "__all__") eqn:Hall; [now apply String.eqb_eq in Hall|].
    simpl. intros H. apply andb_prop in H. destruct H as [Hj Hx].
    apply String.eqb_eq in Hj, Hx. subst p. discriminate.
  - intros ->. reflexivity.
Qed.
End DescriptorProperties.

(** ** Requests and results *)

Lemma setattr_raises (self : RpcRequest.t) (k : string) (v : pyval) :
  raises (RpcRequest.setattr self k v) = attribute_refused (k, v).
Proof.
  unfold RpcRequest.setattr, attribute_refused. simpl.
  destruct (String.eqb k "__class__"); [reflexivity|].
  destruct (String.eqb k "__dict__") eqn:Hd.
  - apply String.eqb_eq in Hd. subst k. now destruct v.
  - destruct (String.eqb k "__weakref__"); reflexivity.
Qed.

Lemma setattrs_raises (kwargs' : list (string * pyval)) :
  forall self,
    raises (RpcRequest.setattrs kwargs' self) = existsb attribute_refused kwargs'.
Proof.
  induction kwargs' as [|[k v] rest IH]; intros self; simpl; [reflexivity|].
  rewrite <- (setattr_raises self k v).
  destruct (RpcRequest.setattr self k v) as [e|self']; simpl; [reflexivity|].
  apply IH.
Qed.

(** X14: the constructor of a request raises exactly when an extra keyword
    argument is named [self], [method_name] or [params], or the parameters
    are neither [None] nor a dict, list, set or tuple, or an extra keyword
    argument is named [__class__] or [__weakref__], or [__dict__] with a
    value that is not a dict; without parameters and extra keyword
    arguments the request has the empty list as [args] and the empty dict
    as [kwargs]. *)
Theorem RpcRequest_init_raises_iff
        (method_name params : pyval) (kwargs' : list (string * pyval)) :
  (raises (RpcRequest.init method_name params kwargs') = true
   <-> RpcRequest.keyword_clash kwargs' = true
       \/ (is_none params = false
           /\ isinstance_dict params = false
           /\ isinstance_list_set_tuple params = false)
       \/ existsb attribute_refused kwargs' = true)
  /\ (is_none params = true ->
      RpcRequest.init method_name params []
      = Return (RpcRequest.make [("request_id", PyNone); ("method_name", method_name);
                                 ("args", PyList []); ("kwargs", PyDict [])])).
Proof.
  split.
  - unfold RpcRequest.init, dict_items.
    destruct (RpcRequest.keyword_clash kwargs'); [split; auto|].
    destruct (RpcRequest.init_params method_name params) as [e|self] eqn:Hinit.
    + assert (Hparams : is_none params = false /\ isinstance_dict params = false
                        /\ isinstance_list_set_tuple params = false).
      { unfold RpcRequest.init_params in Hinit. revert Hinit.
        destruct params; simpl; try discriminate; auto. }
      simpl. split; auto.
    + assert (Hparams : ~ (is_none params = false /\ isinstance_dict params = false
                           /\ isinstance_list_set_tuple params = false)).
      { unfold RpcRequest.init_params in Hinit. revert Hinit.
        destruct params; simpl; try discriminate; intros _ (? & ? & ?); discriminate. }
      simpl bind. rewrite setattrs_raises. split.
      * auto.
      * intros [H | [H | H]]; [discriminate | contradiction | exact H].
  - destruct params; try discriminate. reflexivity.
Qed.

Lemma setattrs_returns (kwargs' : list (string * pyval)) :
  forall self self',
    RpcRequest.setattrs kwargs' self = Return self' ->
    ~ In "__dict__" (map fst kwargs') ->
    (forall k, ~ In k (map fst kwargs') ->
               RpcRequest.lookup self' k = RpcRequest.lookup self k)
    /\ (NoDup (map fst kwargs') ->
        forall k v, In (k, v) kwargs' -> RpcRequest.lookup self' k = Some v).
Proof.
  induction kwargs' as [|[k0 v0] rest IH]; intros self self' Hset Hdict; simpl in *.
  - injection Hset as <-. split; [reflexivity | contradiction].
  - assert (Hstore : RpcRequest.setattr self k0 v0
                     = Return (RpcRequest.store self k0 v0)).
    { revert Hset. unfold RpcRequest.setattr.
      destruct (String.eqb k0 "__class__"); [discriminate|].
      destruct (String.eqb k0 "__dict__") eqn:Hd;
        [apply String.eqb_eq in Hd; subst k0; tauto|].
      destruct (String.eqb k0 "__weakref__"); [discriminate | reflexivity]. }
    rewrite Hstore in Hset. simpl in Hset.
    destruct (IH _ _ Hset ltac:(tauto)) as [Hother Hsame]. split.
    + intros k Hk. rewrite Hother by tauto. apply lookup_store_other. tauto.
    + intros Hnodup k v [[= -> ->] | Hin].
      * inversion Hnodup; subst. rewrite Hother by assumption.
        apply lookup_store_same.
      * inversion Hnodup; subst. now apply Hsame.
Qed.

(** X15: when the constructor returns and no extra keyword argument is named
    [__dict__], every extra keyword argument can be read back from the
    request as the attribute of that name, and an attribute no extra keyword
    argument names keeps the value the constructor gave it ([request_id] is
    [None], [method_name] the name passed). *)
Theorem RpcRequest_init_extra_attributes
        (method_name params : pyval) (kwargs' : list (string * pyval))
        (self : RpcRequest.t) :
  RpcRequest.init method_name params kwargs' = Return self ->
  NoDup (map fst kwargs') ->
  ~ In "__dict__" (map fst kwargs') ->
  (forall k v, In (k, v) kwargs' -> RpcRequest.lookup self k = Some v)
  /\ (~ In "request_id" (map fst kwargs') -> RpcRequest.request_id self = Some PyNone)
  /\ (~ In "method_name" (map fst kwargs') ->
      RpcRequest.method_name self = Some method_name).
Proof.
  unfold RpcRequest.init, dict_items.
  destruct (RpcRequest.keyword_clash kwargs'); [discriminate|].
  destruct (RpcRequest.init_params method_name params) as [e|self0] eqn:Hinit;
    [discriminate|].
  simpl bind. intros Hset Hnodup Hdict.
  assert (Hid : RpcRequest.lookup self0 "request_id" = Some PyNone
                /\ RpcRequest.lookup self0 "method_name" = Some method_name).
  { unfold RpcRequest.init_params in Hinit. revert Hinit.
    destruct params; simpl; intros [= <-]; now split. }
  destruct (setattrs_returns kwargs' self0 self Hset Hdict) as [Hother Hsame].
  split; [now apply Hsame|]. unfold RpcRequest.request_id, RpcRequest.method_name.
  split; intros Hnin; rewrite Hother by exact Hnin; apply Hid.
Qed.

(** X16: the error accessors index whatever the result holds, without
    looking at [is_error()]: on a fresh result they raise [TypeError], and
    after [set_success] with a list payload they return the payload's
    elements 0, 1 and 2, or raise [IndexError] where the list is too
    short. *)
Theorem RpcResult_error_accessors_unchecked (request_id : pyval) :
  (RpcResult.error_code (RpcResult.init request_id) = Raise TypeError
   /\ RpcResult.error_message (RpcResult.init request_id) = Raise TypeError
   /\ RpcResult.error_data (RpcResult.init request_id) = Raise TypeError)
  /\ forall (self : RpcResult.t) (payload : list pyval),
      let self' := RpcResult.set_success (PyList payload) self in
      let item i := match nth_error payload i with
                    | Some x => Return x
                    | None => Raise IndexError
                    end in
      RpcResult.is_error self' = Some false
      /\ RpcResult.error_code self' = item 0
      /\ RpcResult.error_message self' = item 1
      /\ RpcResult.error_data self' = item 2.
Proof.
  split; [repeat split|].
  intros self payload self' item. repeat split.
Qed.

(** X17: no call of the setters changes the [request_id] a result was
    created with. *)
Theorem RpcResult_request_id_kept (request_id : pyval) (ops : list setter) :
  RpcResult.request_id (fold_left apply_setter ops (RpcResult.init request_id))
  = request_id.
Proof.
  assert (H : forall self, RpcResult.request_id (fold_left apply_setter ops self)
                           = RpcResult.request_id self).
  { induction ops as [|op rest IH]; intros self; simpl; [reflexivity|].
    rewrite IH. now destruct op. }
  now rewrite H.
Qed.

(** ** [system.multicall] on longer batches *)

Section MulticallProperties.
Variable HttpRequest : Type.
Variable World : Type.
Variables REQUEST_KEY HANDLER_KEY : string.

Local Abbreviation Kwargs := (Kwargs HttpRequest World).
Local Abbreviation RPCHandler := (RPCHandler HttpRequest World).

Lemma multi_call_loop_acc (handler : RPCHandler) (request : HttpRequest)
      (calls : list pyval) :
  forall results w,
    multi_call_loop handler request calls results w
    = match multi_call_loop handler request calls [] w with
      | (inl e, w') => (inl e, w')
      | (inr items, w') => (inr (results ++ items)%list, w')
      end.
Proof.
  induction calls as [|call rest IH]; intros results w; simpl.
  - now rewrite app_nil_r.
  - destruct (multi_call_step handler request call w) as [[e|item] w']; [reflexivity|].
    rewrite (IH (results ++ [item])%list), (IH [item]).
    destruct (multi_call_loop handler request rest [] w') as [[e|items] w''];
      [reflexivity|].
    now rewrite <- app_assoc.
Qed.

Lemma multi_call_loop_app (handler : RPCHandler) (request : HttpRequest)
      (calls1 calls2 : list pyval) :
  forall results w,
    multi_call_loop handler request (calls1 ++ calls2) results w
    = match multi_call_loop handler request calls1 results w with
      | (inl e, w') => (inl e, w')
      | (inr results', w') => multi_call_loop handler request calls2 results' w'
      end.
Proof.
  induction calls1 as [|call rest IH]; intros results w; simpl; [reflexivity|].
  destruct (multi_call_step handler request call w) as [[e|item] w']; [reflexivity|].
  apply IH.
Qed.

Lemma multi_call_returns_loop (calls results : list pyval) (kwargs : Kwargs) (w w' : World) :
  __system_multi_call REQUEST_KEY HANDLER_KEY (PyList calls) kwargs w
  = (Return (PyList results), w') ->
  exists handler request,
    kw_handler kwargs = Some handler
    /\ kw_request kwargs = Some request
    /\ multi_call_loop handler request calls [] w = (Return results, w').
Proof.
  unfold __system_multi_call, kwargs_getitem.
  destruct (kw_handler kwargs) as [handler|]; simpl; [|discriminate].
  destruct (kw_request kwargs) as [request|]; simpl; [|discriminate].
  destruct (multi_call_loop handler request calls [] w) as [[e|items] w1] eqn:Hloop;
    [discriminate|].
  intros [= <- <-]. now exists handler, request.
Qed.

(** X18: batches compose: when a batch returns its results and a second
    batch, run in the world the first left, returns its own, the two batches
    sent as one return the first results followed by the second and leave
    the same world. *)
Theorem system_multi_call_concat
        (calls1 calls2 results1 results2 : list pyval) (kwargs : Kwargs)
        (w w1 w2 : World) :
  __system_multi_call REQUEST_KEY HANDLER_KEY (PyList calls1) kwargs w
  = (Return (PyList results1), w1) ->
  __system_multi_call REQUEST_KEY HANDLER_KEY (PyList calls2) kwargs w1
  = (Return (PyList results2), w2) ->
  __system_multi_call REQUEST_KEY HANDLER_KEY (PyList (calls1 ++ calls2)) kwargs w
  = (Return (PyList (results1 ++ results2)), w2).
Proof.
  intros H1 H2.
  destruct (multi_call_returns_loop _ _ _ _ _ H1) as (handler & request & Hh & Hr & L1).
  destruct (multi_call_returns_loop _ _ _ _ _ H2) as (handler' & request' & Hh' & Hr' & L2).
  rewrite Hh in Hh'. rewrite Hr in Hr'. injection Hh' as <-. injection Hr' as <-.
  unfold __system_multi_call. rewrite Hh, Hr. simpl.
  rewrite multi_call_loop_app. unfold Return in L1, L2. rewrite L1.
  rewrite multi_call_loop_acc, L2. reflexivity.
Qed.

(** X19: a batch stops at its first call from which no request can be
    built: the calls before it have been dispatched, the exception of the
    request's construction leaves [system.multicall] in the world they left,
    and no later call is dispatched. *)
Theorem system_multi_call_stops_at_first_bad_call
        (good rest results : list pyval) (bad : pyval) (e : exn) (kwargs : Kwargs)
        (w w1 : World) :
  __system_multi_call REQUEST_KEY HANDLER_KEY (PyList good) kwargs w
  = (Return (PyList results), w1) ->
  call_request bad = Raise e ->
  __system_multi_call REQUEST_KEY HANDLER_KEY (PyList (good ++ bad :: rest)) kwargs w
  = (Raise e, w1).
Proof.
  intros Hgood Hbad.
  destruct (multi_call_returns_loop _ _ _ _ _ Hgood) as (handler & request & Hh & Hr & L).
  unfold __system_multi_call. rewrite Hh, Hr. simpl.
  rewrite multi_call_loop_app. unfold Return in L. rewrite L. simpl.
  unfold multi_call_step. unfold call_request, Raise in Hbad. now rewrite Hbad.
Qed.
End MulticallProperties.

(** ** Declarations registered in bulk, and their authorization defaults *)

Section BulkProperties.
Variable HttpRequest : Type.

Local Abbreviation RPCMethod := (RPCMethod HttpRequest).
Local Abbreviation _RPCRegistry := (_RPCRegistry HttpRequest).
Local Abbreviation pyfunc := (pyfunc HttpRequest).

Lemma RPCMethod_init_auth (func : pyfunc) (method : RPCMethod) :
  RPCMethod_init func = Return method ->
  predicates method = modernrpc_auth_predicates func
  /\ predicates_params method
     = getattr_default (modernrpc_auth_predicates_params func) [].
Proof.
  unfold RPCMethod_init, getattr.
  destruct (modernrpc_entry_point func); [|discriminate].
  destruct (modernrpc_protocol func); [|discriminate].
  simpl. intros [= <-]. now split.
Qed.

(** X20: the descriptor of a function without authentication predicates
    lets every request through; the descriptor of a function that has
    predicates but no [modernrpc_auth_predicates_params] attribute raises
    [IndexError] on every request instead of answering. *)
Theorem check_permissions_defaults
        (func : pyfunc) (method : RPCMethod) (request : HttpRequest) :
  RPCMethod_init func = Return method ->
  (modernrpc_auth_predicates func = None ->
   check_permissions method request = Return true)
  /\ (forall p rest,
         modernrpc_auth_predicates func = Some (p :: rest) ->
         modernrpc_auth_predicates_params func = None ->
         check_permissions method request = Raise IndexError).
Proof.
  intros Hinit. destruct (RPCMethod_init_auth _ _ Hinit) as [Hp Hps].
  unfold check_permissions. rewrite Hp, Hps. split.
  - intros ->. reflexivity.
  - intros p rest -> ->. reflexivity.
Qed.

Lemma names_ALL_unsorted (self : _RPCRegistry) :
  get_all_method_names self ALL ALL false = map fst (_registry self).
Proof.
  unfold get_all_method_names, dict_items. now rewrite filter_valid_ALL.
Qed.

(** X21: enabled declarations with pairwise different names, none starting
    with [rpc.] and none registered yet, are all accepted when registered
    one after the other: their names are appended to the listing in that
    order and the count grows by their number. *)
Theorem register_each_distinct_names (funcs : list pyfunc) :
  forall self : _RPCRegistry,
    Forall (registrable self) funcs ->
    NoDup (map (@declared_name HttpRequest) funcs) ->
    get_all_method_names (register_each funcs self) ALL ALL false
    = (get_all_method_names self ALL ALL false
         ++ map (@declared_name HttpRequest) funcs)%list
    /\ total_count (register_each funcs self) = total_count self + List.length funcs.
Proof.
  induction funcs as [|func rest IH]; intros self Hall Hnodup.
  - simpl. now rewrite app_nil_r, Nat.add_0_r.
  - change (register_each (func :: rest) self)
      with (register_each rest (snd (register_method func self))).
    inversion Hall as [|? ? (Hen & [method Hinit] & Hpre & Hfree) Hrest]; subst.
    inversion Hnodup as [|? ? Hfresh Hnodup']; subst.
    assert (Hname : name method = declared_name func).
    { unfold name, declared_name. now rewrite (RPCMethod_init_function _ _ _ Hinit). }
    rewrite <- Hname in Hpre, Hfree.
    rewrite (register_method_fresh _ func self method Hen Hinit Hpre Hfree).
    cbn [snd]. rewrite Hname in *.
    destruct (IH {| _registry := dict_set (_registry self) (declared_name func) method |})
      as [Hnames Hcount].
    + rewrite Forall_forall in Hrest. apply Forall_forall.
      intros g Hg. destruct (Hrest g Hg) as (Hen' & Hinit' & Hpre' & Hfree').
      repeat split; auto. simpl.
      rewrite dict_get_set_other; [exact Hfree'|].
      intros Heq. apply Hfresh. rewrite Heq. now apply in_map.
    + exact Hnodup'.
    + rewrite Hnames, Hcount. rewrite !names_ALL_unsorted. simpl.
      unfold total_count, dict_len. simpl.
      apply dict_get_None_iff in Hfree.
      rewrite dict_set_fresh by exact Hfree.
      rewrite map_app, length_app, <- app_assoc. simpl. split; [reflexivity | lia].
Qed.
End BulkProperties.

(** ** The further properties at work on the sample data *)

Lemma sample_registry_ok : registry_ok Sample.registry.
Proof.
  split.
  - repeat constructor; simpl; intuition discriminate.
  - repeat constructor.
Qed.

Lemma register_method_keeps_registry_ok_witness : registry_ok Sample.registry.
Proof.
  change Sample.registry
    with (snd (register_method Sample.admin_only
                 (snd (register_method Sample.echo
                         (snd (register_method Sample.square empty_registry)))))).
  repeat apply (proj2 (proj2 (register_method_keeps_registry_ok Sample.HttpRequest))).
  apply (proj1 (register_method_keeps_registry_ok Sample.HttpRequest)).
Defined.

Lemma register_method_new_name_witness :
  total_count (snd (register_method Sample2.json_only Sample.registry)) = 4.
Proof.
  exact (proj1 (register_method_new_name Sample.HttpRequest Sample2.json_only
                  Sample.registry
                  (snd (register_method Sample2.json_only Sample.registry))
                  "json.echo" eq_refl eq_refl)).
Defined.

Lemma register_method_keeps_entries_witness :
  exists m,
    dict_get (_registry (snd (register_method Sample2.json_only Sample.registry))) "echo"
    = Some m.
Proof.
  eexists.
  apply (proj1 (register_method_keeps_entries Sample.HttpRequest Sample2.json_only
                  Sample.registry)).
  reflexivity.
Defined.

Lemma reset_clears_registry_witness :
  exists method,
    RPCMethod_init Sample.square = Return method
    /\ register_method Sample.square
                       (reset (Sample.register_all [Sample.echo; Sample.square]))
       = (Return "square", {| _registry := [("square", method)] |}).
Proof.
  apply (proj2 (proj2 (proj2 (reset_clears_registry Sample.HttpRequest
                                (Sample.register_all [Sample.echo; Sample.square]))))
           Sample.square (Sample.register_all [Sample.echo]) "square").
  reflexivity.
Defined.

Lemma listed_iff_resolves_witness :
  exists m, get_method Sample.registry "square" (PyStr "public") ALL = Return (Some m).
Proof.
  apply (proj1 (listed_iff_resolves Sample.HttpRequest Sample.registry "square"
                  (PyStr "public") ALL true (proj1 sample_registry_ok))).
  simpl. tauto.
Defined.

Lemma get_method_returns_named_witness :
  name (Sample2.method_of Sample.admin_only (PyStr "admin") ALL) = "purge".
Proof.
  apply (proj1 (get_method_returns_named Sample.HttpRequest Sample.registry "purge"
                  (PyStr "admin") JSONRPC_PROTOCOL
                  (Sample2.method_of Sample.admin_only (PyStr "admin") ALL)
                  sample_registry_ok eq_refl)).
Defined.

Lemma sorted_methods_match_sorted_names_witness :
  map (@name _) (get_all_methods Sample.registry (PyStr "public") ALL true)
  = get_all_method_names Sample.registry (PyStr "public") ALL true.
Proof.
  apply (sorted_methods_match_sorted_names Sample.HttpRequest Sample.registry).
  repeat constructor.
Defined.

Lemma system_methods_answer_listed_names_witness :
  (exists types,
      __system_method_signature Sample.registry "square" Sample.kwargs = Return types)
  /\ is_invalid_params (__system_method_help Sample.registry "purge" Sample.kwargs) = true.
Proof.
  split.
  - apply (proj1 (system_methods_answer_listed_names Sample.HttpRequest Sample.World
                    Sample.registry "square" Sample.kwargs (proj1 sample_registry_ok))).
    simpl. tauto.
  - apply (proj2 (system_methods_answer_listed_names Sample.HttpRequest Sample.World
                    Sample.registry "purge" Sample.kwargs (proj1 sample_registry_ok))).
    simpl. intuition discriminate.
Defined.

Lemma rpc_method_registers_witness :
  exists method,
    RPCMethod_init (rpc_method (Some "") (PyStr "admin") ALL Sample.square_def)
    = Return method
    /\ name method = "square"
    /\ entry_point method = PyStr "admin".
Proof.
  destruct (rpc_method_registers Sample.HttpRequest (Some "") (PyStr "admin") ALL
              Sample.square_def empty_registry)
    as (method & Hinit & Hname & Hep & _).
  exists method. repeat split; assumption.
Defined.

Lemma args_doc_lookup_witness :
  dict_get (args_doc Sample2.documented_method) "w"
  = Some [("type", "int"); ("text", "width")]
  /\ dict_get (args_doc Sample2.documented_method) "depth" = None.
Proof.
  split.
  - apply (proj1 (args_doc_lookup Sample.HttpRequest Sample2.documented_method "w")).
    simpl. tauto.
  - apply (proj1 (proj2 (args_doc_lookup Sample.HttpRequest
                           Sample2.documented_method "depth"))).
    simpl. intuition discriminate.
Defined.

Lemma single_protocol_availability_witness :
  is_available_in_json_rpc Sample2.json_method = true
  /\ is_available_in_xml_rpc Sample2.json_method = false.
Proof.
  split.
  - apply (proj1 (single_protocol_availability Sample.HttpRequest Sample2.json_method
                    "__json_rpc" eq_refl)).
  - apply (proj1 (proj2 (single_protocol_availability Sample.HttpRequest
                           Sample2.json_method "__json_rpc" eq_refl))).
Defined.

Lemma RpcRequest_init_raises_iff_witness :
  raises (RpcRequest.init (PyStr "add") (PyStr "2, 3") [("request_id", PyInt 7)]) = true
  /\ raises (RpcRequest.init (PyStr "add") PyNone [("method_name", PyStr "sub")]) = true
  /\ raises (RpcRequest.init (PyStr "add") PyNone [("__class__", PyInt 5)]) = true.
Proof.
  split; [|split].
  - apply (proj1 (RpcRequest_init_raises_iff (PyStr "add") (PyStr "2, 3")
                    [("request_id", PyInt 7)])).
    right. left. now split.
  - apply (proj1 (RpcRequest_init_raises_iff (PyStr "add") PyNone
                    [("method_name", PyStr "sub")])).
    left. reflexivity.
  - apply (proj1 (RpcRequest_init_raises_iff (PyStr "add") PyNone
                    [("__class__", PyInt 5)])).
    right. right. reflexivity.
Defined.

Lemma RpcRequest_init_extra_attributes_witness :
  RpcRequest.lookup
    (RpcRequest.make [("request_id", PyInt 7); ("method_name", PyStr "add");
                      ("args", PyList [PyInt 2; PyInt 3]); ("kwargs", PyDict []);
                      ("is_notification", PyInt 1)])
    "is_notification"
  = Some (PyInt 1).
Proof.
  apply (proj1 (RpcRequest_init_extra_attributes
                  (PyStr "add") (PyList [PyInt 2; PyInt 3])
                  [("request_id", PyInt 7); ("is_notification", PyInt 1)]
                  (RpcRequest.make [("request_id", PyInt 7); ("method_name", PyStr "add");
                                    ("args", PyList [PyInt 2; PyInt 3]);
                                    ("kwargs", PyDict []); ("is_notification", PyInt 1)])
                  eq_refl
                  ltac:(repeat constructor; simpl; intuition discriminate)
                  ltac:(simpl; intuition discriminate))).
  simpl. tauto.
Defined.

Lemma system_multi_call_concat_witness :
  __system_multi_call "request" "handler"
                      (PyList ([Sample.add_call] ++ [Sample.missing_call]))
                      Sample.kwargs 0
  = (Return (PyList ([PyList [PyInt 5]]
                       ++ [PyDict [("faultCode", PyInt (-32601));
                                   ("faultString", PyStr "Method not found")]])), 2).
Proof.
  apply (system_multi_call_concat Sample.HttpRequest Sample.World "request" "handler"
           [Sample.add_call] [Sample.missing_call] _ _ Sample.kwargs 0 1 2);
    reflexivity.
Defined.

Lemma system_multi_call_stops_at_first_bad_call_witness :
  __system_multi_call "request" "handler"
                      (PyList ([Sample.add_call]
                                 ++ Sample.bad_params_call :: [Sample.missing_call]))
                      Sample.kwargs 0
  = (Raise (ValueError "RPCRequest initial params has an unsupported type: <class 'int'>"),
     1).
Proof.
  apply (system_multi_call_stops_at_first_bad_call Sample.HttpRequest Sample.World
           "request" "handler" [Sample.add_call] [Sample.missing_call]
           [PyList [PyInt 5]] Sample.bad_params_call _ Sample.kwargs 0 1);
    reflexivity.
Defined.

Lemma check_permissions_defaults_witness :
  check_permissions (Sample2.method_of Sample2.unparametrised ALL ALL) "john"
  = Raise IndexError
  /\ check_permissions (Sample2.method_of Sample.square ALL ALL) "" = Return true.
Proof.
  split.
  - apply (proj2 (check_permissions_defaults Sample.HttpRequest Sample2.unparametrised
                    (Sample2.method_of Sample2.unparametrised ALL ALL) "john" eq_refl)
             Sample.is_logged []); reflexivity.
  - apply (proj1 (check_permissions_defaults Sample.HttpRequest Sample.square
                    (Sample2.method_of Sample.square ALL ALL) "" eq_refl)).
    reflexivity.
Defined.

Lemma register_each_distinct_names_witness :
  get_all_method_names
    (register_each [Sample.square; Sample.echo; Sample.admin_only] empty_registry)
    ALL ALL false
  = ["square"; "echo"; "purge"].
Proof.
  apply (proj1 (register_each_distinct_names Sample.HttpRequest
                  [Sample.square; Sample.echo; Sample.admin_only] empty_registry
                  ltac:(repeat constructor; eexists; reflexivity)
                  ltac:(repeat constructor; simpl; intuition discriminate))).
Defined.
